(** * Grading orchestration of the Autograding app (src/App.tsx)

    A shallow embedding of the [GradingProvider] component: the document
    store ([files]), the settings holder and the two grading handlers
    ([startBatchGrading], [reGradeFile]).

    React state is modelled the way React keeps it: every [setX(...)] call
    of a handler queues one update, and the state is the fold of the queued
    updates.  A handler is therefore a function from the values captured by
    its closure ([files], [rubric], [settings] of the render in which it was
    created) to the list of updates it queues, in order.  The updates other
    handlers queue while a handler is suspended at an [await] are explicit
    arguments. *)

From Stdlib Require Import List String Ascii Bool Arith NArith ZArith Lia.
Import ListNotations.
Open Scope string_scope.
Open Scope list_scope.

Set Implicit Arguments.

(** ** src/types.ts *)

Inductive FileStatus := PENDING | PROCESSING | COMPLETED | ERROR.

Definition FileStatus_value (s : FileStatus) : string :=
  match s with
  | PENDING => "Pending"
  | PROCESSING => "Processing"
  | COMPLETED => "Graded"
  | ERROR => "Error"
  end.

Definition FileStatus_eqb (a b : FileStatus) : bool :=
  match a, b with
  | PENDING, PENDING | PROCESSING, PROCESSING
  | COMPLETED, COMPLETED | ERROR, ERROR => true
  | _, _ => false
  end.

Inductive ModelProvider := GEMINI | CUSTOM.

Definition ModelProvider_eqb (a b : ModelProvider) : bool :=
  match a, b with
  | GEMINI, GEMINI | CUSTOM, CUSTOM => true
  | _, _ => false
  end.

Record GradingDetailItem := {
  detail_name : string;
  detail_score : option string;
  detail_feedback : option string
}.

Record GradingResult := {
  score : string;
  maxScore : string;
  summary : string;
  strengths : list string;
  weaknesses : list string;
  suggestions : string;
  details : option (list GradingDetailItem)
}.

Record HomeworkFile := {
  id : string;
  name : string;
  type : string;
  size : N;
  base64Data : option string;
  textContent : option string;
  status : FileStatus;
  result : option GradingResult;
  errorMessage : option string
}.

Record AppSettings := {
  apiKey : string;
  modelProvider : ModelProvider;
  customBaseUrl : option string;
  modelName : string
}.

(** [Partial<AppSettings>]: a field is [None] when the key is absent from
    the patch.  [customBaseUrl] is optional in [AppSettings] itself, so a
    patch can carry the key with the value [undefined]. *)
Record PartialAppSettings := {
  p_apiKey : option string;
  p_modelProvider : option ModelProvider;
  p_customBaseUrl : option (option string);
  p_modelName : option string
}.

(** The browser's [File]: the three properties [addFiles] copies, and the
    payload the extraction services read. *)
Record File := {
  file_name : string;
  file_type : string;
  file_size : N;
  file_payload : string
}.

(** ** Awaited calls

    What an [await]ed call of a collaborator gives back: the value the
    promise resolves to, or the value it rejects with.  A thrown value is an
    [Error] object carrying a message, or anything else. *)

Inductive Thrown :=
| ErrorObject (message : string)
| NotAnError.

Inductive Outcome (A : Type) :=
| Returned (a : A)
| Threw (e : Thrown).
Arguments Returned {A} a.
Arguments Threw {A} e.

Definition bind {A B} (m : Outcome A) (k : A -> Outcome B) : Outcome B :=
  match m with
  | Returned a => k a
  | Threw e => Threw e
  end.

Notation "x <- m ;; k" := (bind m (fun x => k))
  (at level 61, m at next level, right associativity).

(** [error instanceof Error ? error.message : "Unknown error"] *)
Definition catchMessage (e : Thrown) : string :=
  match e with
  | ErrorObject message => message
  | NotAnError => "Unknown error"
  end.

(** [gradeHomework(file, rubric, settings)] of services/geminiService.  The
    service is outside the component; the first argument is the ordinal of
    the call within the handler, so that two calls on equal arguments may
    still end differently. *)
Definition Invoker :=
  nat -> HomeworkFile -> string -> AppSettings -> Outcome GradingResult.

(** ** The component's state and the updates queued on it *)

Record AppState := {
  files : list HomeworkFile;
  rubric : string;
  settings : AppSettings;
  isGrading : bool
}.

Inductive Update :=
| AppendFiles (processedFiles : list HomeworkFile)
| RemoveFile (id : string)
| UpdateFileStatus (id : string) (status : FileStatus)
    (result : option GradingResult) (error : option string)
| SetSettings (newSettings : PartialAppSettings)
| SetRubric (rubric : string)
| SetIsGrading (b : bool).

(** [prev => prev.filter(f => f.id !== id)] *)
Definition removeFile (i : string) (prev : list HomeworkFile) : list HomeworkFile :=
  filter (fun f => negb (String.eqb (id f) i)) prev.

(** [{ ...f, status, result, errorMessage: error }] *)
Definition withStatus (f : HomeworkFile) (s : FileStatus)
    (r : option GradingResult) (e : option string) : HomeworkFile :=
  {| id := id f; name := name f; type := type f; size := size f;
     base64Data := base64Data f; textContent := textContent f;
     status := s; result := r; errorMessage := e |}.

(** [prev => prev.map(f => f.id === id ? {...} : f)] *)
Definition updateFileStatus (i : string) (s : FileStatus)
    (r : option GradingResult) (e : option string)
    (prev : list HomeworkFile) : list HomeworkFile :=
  map (fun f => if String.eqb (id f) i then withStatus f s r e else f) prev.

Definition orElse {A} (patch : option A) (prev : A) : A :=
  match patch with
  | Some a => a
  | None => prev
  end.

(** [prev => ({ ...prev, ...newSettings })] *)
Definition updateSettings (newSettings : PartialAppSettings) (prev : AppSettings)
    : AppSettings :=
  {| apiKey := orElse (p_apiKey newSettings) (apiKey prev);
     modelProvider := orElse (p_modelProvider newSettings) (modelProvider prev);
     customBaseUrl := orElse (p_customBaseUrl newSettings) (customBaseUrl prev);
     modelName := orElse (p_modelName newSettings) (modelName prev) |}.

Definition setFiles (k : list HomeworkFile -> list HomeworkFile) (st : AppState)
    : AppState :=
  {| files := k (files st); rubric := rubric st;
     settings := settings st; isGrading := isGrading st |}.

Definition applyUpdate (u : Update) (st : AppState) : AppState :=
  match u with
  | AppendFiles processedFiles => setFiles (fun prev => prev ++ processedFiles) st
  | RemoveFile i => setFiles (removeFile i) st
  | UpdateFileStatus i s r e => setFiles (updateFileStatus i s r e) st
  | SetSettings newSettings =>
      {| files := files st; rubric := rubric st;
         settings := updateSettings newSettings (settings st);
         isGrading := isGrading st |}
  | SetRubric r =>
      {| files := files st; rubric := r;
         settings := settings st; isGrading := isGrading st |}
  | SetIsGrading b =>
      {| files := files st; rubric := rubric st;
         settings := settings st; isGrading := b |}
  end.

(** The state once every queued update has been applied. *)
Fixpoint run (us : list Update) (st : AppState) : AppState :=
  match us with
  | [] => st
  | u :: rest => run rest (applyUpdate u st)
  end.

(** The state after each queued update, in order. *)
Fixpoint trace (us : list Update) (st : AppState) : list AppState :=
  match us with
  | [] => []
  | u :: rest => applyUpdate u st :: trace rest (applyUpdate u st)
  end.

(** ** addFiles *)

(** [!f.name.startsWith('.')] *)
Definition notHidden (f : File) : bool := negb (String.prefix "." (file_name f)).

(** [Math.random().toString(36).substr(2, 9)]: [rendered] is the base-36
    rendering of the draw, e.g. ["0.i"] for 0.5. *)
Definition freshId (rendered : string) : string := String.substring 2 9 rendered.

Section AddFiles.
(** [random k]: the base-36 rendering of the k-th draw of the call. *)
Variable random : nat -> string.
(** services/fileService *)
Variable readFileAsBase64 : File -> Outcome (option string).
Variable extractTextFromFile : File -> Outcome (option string).

(** One turn of [for (const f of validFiles)]: the object literal is
    evaluated in field order, so the id is drawn first and the two
    extractions are awaited after it, base64 before text. *)
Definition processFile (k : nat) (f : File) : Outcome HomeworkFile :=
  let i := freshId (random k) in
  b <- readFileAsBase64 f ;;
  t <- extractTextFromFile f ;;
  Returned {| id := i; name := file_name f; type := file_type f;
              size := file_size f; base64Data := b; textContent := t;
              status := PENDING; result := None; errorMessage := None |}.

Fixpoint processFiles (k : nat) (validFiles : list File)
    : Outcome (list HomeworkFile) :=
  match validFiles with
  | [] => Returned []
  | f :: rest =>
      x <- processFile k f ;;
      xs <- processFiles (S k) rest ;;
      Returned (x :: xs)
  end.

(** The handler queues its single [setFiles] only after the loop; a fault
    in the loop rejects the handler's promise before that. *)
Definition addFiles (newFiles : list File) : Outcome (list Update) :=
  processedFiles <- processFiles 0 (filter notHidden newFiles) ;;
  Returned [AppendFiles processedFiles].
End AddFiles.

(** ** startBatchGrading and reGradeFile *)

Definition toGrade (f : HomeworkFile) : bool :=
  match status f with
  | PENDING | ERROR => true
  | _ => false
  end.

(** The update a handler queues once [gradeHomework] has settled: the
    [try] branch on a result, the [catch] branch on a fault. *)
Definition settle (i : string) (o : Outcome GradingResult) : Update :=
  match o with
  | Returned r => UpdateFileStatus i COMPLETED (Some r) None
  | Threw e => UpdateFileStatus i ERROR None (Some (catchMessage e))
  end.

Section Handlers.
(** The values the handler's closure captured. *)
Variable closure_files : list HomeworkFile.
Variable closure_rubric : string.
Variable closure_settings : AppSettings.
Variable gradeHomework : Invoker.

(** [for (const file of filesToGrade)]; [awaiting k] are the updates
    other handlers queue while the k-th turn is suspended at its two
    awaits (the 500 ms pause and the grading call). *)
Fixpoint gradeEach (awaiting : nat -> list Update) (k : nat)
    (filesToGrade : list HomeworkFile) : list Update :=
  match filesToGrade with
  | [] => []
  | file :: rest =>
      UpdateFileStatus (id file) PROCESSING None None
      :: awaiting k
      ++ settle (id file) (gradeHomework k file closure_rubric closure_settings)
      :: gradeEach awaiting (S k) rest
  end.

Definition filesToGrade : list HomeworkFile := filter toGrade closure_files.

Definition startBatchGrading (awaiting : nat -> list Update) : list Update :=
  SetIsGrading true
  :: gradeEach awaiting 0 filesToGrade
  ++ [SetIsGrading false].

Definition reGradeFile (awaiting : list Update) (i : string) : list Update :=
  match find (fun f => String.eqb (id f) i) closure_files with
  | None => []
  | Some file =>
      UpdateFileStatus i PROCESSING None None
      :: awaiting
      ++ [settle i (gradeHomework 0 file closure_rubric closure_settings)]
  end.
End Handlers.

(** A handler invoked on the current render: its closure holds the state's
    own [files], [rubric] and [settings]. *)
Definition clickStartBatch (g : Invoker) (awaiting : nat -> list Update)
    (st : AppState) : list Update :=
  startBatchGrading (files st) (rubric st) (settings st) g awaiting.

Definition clickReGrade (g : Invoker) (awaiting : list Update) (i : string)
    (st : AppState) : list Update :=
  reGradeFile (files st) (rubric st) (settings st) g awaiting i.

(** ** src/constants.ts and the settings view *)

Record ModelOption := {
  value : string;
  label : string;
  provider : ModelProvider;
  defaultBaseUrl : option string
}.

Definition AVAILABLE_MODELS : list ModelOption :=
  [ {| value := "gemini-2.5-flash";
       label := "Gemini 2.5 Flash (Google-速度快&视觉强)";
       provider := GEMINI; defaultBaseUrl := None |};
    {| value := "gemini-2.5-pro-preview";
       label := "Gemini 2.5 Pro (Google-推理强)";
       provider := GEMINI; defaultBaseUrl := None |};
    {| value := "qwen-plus";
       label := "Qwen Plus (通义千问-文本增强版)";
       provider := CUSTOM;
       defaultBaseUrl := Some "https://dashscope.aliyuncs.com/compatible-mode/v1" |};
    {| value := "qwen-vl-max";
       label := "Qwen VL Max (通义千问-视觉超强版)";
       provider := CUSTOM;
       defaultBaseUrl := Some "https://dashscope.aliyuncs.com/compatible-mode/v1" |};
    {| value := "deepseek-ai/DeepSeek-V3";
       label := "DeepSeek V3 (深度求索-文本)";
       provider := CUSTOM;
       defaultBaseUrl := Some "https://api.siliconflow.cn/v1" |};
    {| value := "Qwen/Qwen2.5-VL-72B-Instruct";
       label := "Qwen2.5 VL (SiliconFlow-视觉版)";
       provider := CUSTOM;
       defaultBaseUrl := Some "https://api.siliconflow.cn/v1" |} ].

(** [a || b] on optional strings: [undefined] and the empty string are
    falsy. *)
Definition orFalsy (a b : option string) : option string :=
  match a with
  | Some EmptyString | None => b
  | Some _ => a
  end.

(** [process.env.API_KEY || ''] is fixed when the bundle is built. *)
Definition DEFAULT_SETTINGS (API_KEY : option string) : AppSettings :=
  {| apiKey := match API_KEY with
               | Some EmptyString | None => ""
               | Some key => key
               end;
     modelProvider := GEMINI;
     customBaseUrl := Some "https://api.siliconflow.cn/v1";
     modelName := "gemini-2.5-flash" |}.

Definition emptyPatch : PartialAppSettings :=
  {| p_apiKey := None; p_modelProvider := None;
     p_customBaseUrl := None; p_modelName := None |}.

(** [SettingsView.handleProviderChange]: the patch it passes to
    [updateSettings]; [closure_settings] is the [settings] of the render. *)
Definition handleProviderChange (closure_settings : AppSettings)
    (p : ModelProvider) : PartialAppSettings :=
  match filter (fun m => ModelProvider_eqb (provider m) p) AVAILABLE_MODELS with
  | firstModel :: _ =>
      {| p_apiKey := None;
         p_modelProvider := Some p;
         p_modelName := Some (value firstModel);
         p_customBaseUrl :=
           Some (orFalsy (defaultBaseUrl firstModel)
                         (customBaseUrl closure_settings)) |}
  | [] =>
      {| p_apiKey := None; p_modelProvider := Some p;
         p_customBaseUrl := None; p_modelName := None |}
  end.

(** A model name the settings view offers for a provider
    ([AVAILABLE_MODELS.filter(m => m.provider === ...)]). *)
Definition offeredFor (p : ModelProvider) (modelName : string) : bool :=
  existsb (fun m => ModelProvider_eqb (provider m) p && String.eqb (value m) modelName)
          AVAILABLE_MODELS.

(** [useState] initial values of [GradingProvider]; the default rubric text
    of constants.ts is a parameter. *)
Definition initialState (DEFAULT_RUBRIC : string) (API_KEY : option string)
    : AppState :=
  {| files := []; rubric := DEFAULT_RUBRIC;
     settings := DEFAULT_SETTINGS API_KEY; isGrading := false |}.

(** [SettingsView.handleModelChange]: the patch it passes to
    [updateSettings]. *)
Definition handleModelChange (modelValue : string) : PartialAppSettings :=
  let selectedModel :=
    find (fun m => String.eqb (value m) modelValue) AVAILABLE_MODELS in
  {| p_apiKey := None;
     p_modelProvider := None;
     p_modelName := Some modelValue;
     p_customBaseUrl :=
       match selectedModel with
       | Some m =>
           match defaultBaseUrl m with
           | Some (String c u) => Some (Some (String c u))
           | _ => None
           end
       | None => None
       end |}.

(** [AVAILABLE_MODELS.filter(m => m.provider === settings.modelProvider)],
    the options of the model select. *)
Definition filteredModels (settings : AppSettings) : list ModelOption :=
  filter (fun m => ModelProvider_eqb (provider m) (modelProvider settings))
         AVAILABLE_MODELS.

(** What the user can do in the settings view: the two provider radios,
    the model select and the two text inputs. *)
Inductive SettingsEvent :=
| ProviderRadio (p : ModelProvider)
| ModelSelect (modelValue : string)
| ApiKeyInput (text : string)
| BaseUrlInput (text : string).

(** The patch the event's handler passes to [updateSettings]. *)
Definition settingsPatch (closure_settings : AppSettings) (ev : SettingsEvent)
    : PartialAppSettings :=
  match ev with
  | ProviderRadio p => handleProviderChange closure_settings p
  | ModelSelect modelValue => handleModelChange modelValue
  | ApiKeyInput text =>
      {| p_apiKey := Some text; p_modelProvider := None;
         p_customBaseUrl := None; p_modelName := None |}
  | BaseUrlInput text =>
      {| p_apiKey := None; p_modelProvider := None;
         p_customBaseUrl := Some (Some text); p_modelName := None |}
  end.

(** One event on the current render, and a sequence of them. *)
Definition settingsStep (ev : SettingsEvent) (s : AppSettings) : AppSettings :=
  updateSettings (settingsPatch s ev) s.

Fixpoint settingsRun (evs : list SettingsEvent) (s : AppSettings) : AppSettings :=
  match evs with
  | [] => s
  | ev :: rest => settingsRun rest (settingsStep ev s)
  end.

(** ** parseScore *)

(** [\d] *)
Definition isDigit (c : ascii) : bool :=
  Nat.leb 48 (nat_of_ascii c) && Nat.leb (nat_of_ascii c) 57.

(** The longest run of digits at the head of [s], and what follows it. *)
Fixpoint digitRun (s : string) : string * string :=
  match s with
  | String c rest =>
      if isDigit c
      then let (ds, tl) := digitRun rest in (String c ds, tl)
      else (EmptyString, s)
  | EmptyString => (EmptyString, EmptyString)
  end.

(** The text [(\d+(\.\d+)?)] matches at the head of [s]: the digit run taken
    greedily, then the fraction when a dot and a digit follow. *)
Definition numberAtHead (s : string) : option string :=
  match digitRun s with
  | (EmptyString, _) => None
  | (ds, EmptyString) => Some ds
  | (ds, String c tl) =>
      if Ascii.eqb c "."%char
      then match digitRun tl with
           | (EmptyString, _) => Some ds
           | (fs, _) => Some (ds ++ String "."%char fs)%string
           end
      else Some ds
  end.

(** [scoreStr.match(/(\d+(\.\d+)?)/)]: [match[0]] of the leftmost match. *)
Fixpoint firstNumber (s : string) : option string :=
  match numberAtHead s with
  | Some token => Some token
  | None =>
      match s with
      | String _ rest => firstNumber rest
      | EmptyString => None
      end
  end.

(** A number [parseFloat] can give on such a text: a finite double,
    [mantissa * 2 ^ exponent], or [Infinity] when the text is too long. *)
Inductive JsNumber :=
| Finite (mantissa exponent : Z)
| Infinity.

(** [s < n] for an integer literal [n]. *)
Definition below (s : JsNumber) (n : Z) : bool :=
  match s with
  | Finite m e =>
      if (0 <=? e)%Z then (m * 2 ^ e <? n)%Z else (m <? n * 2 ^ (- e))%Z
  | Infinity => false
  end.

(** [s >= n]; on numbers other than NaN it is the negation of [s < n]. *)
Definition atLeast (s : JsNumber) (n : Z) : bool := negb (below s n).

Definition isSome {A} (o : option A) : bool :=
  match o with
  | Some _ => true
  | None => false
  end.

(** [l.filter(x => x !== null)] with the values unwrapped. *)
Fixpoint nonNull {A} (l : list (option A)) : list A :=
  match l with
  | [] => []
  | Some a :: rest => a :: nonNull rest
  | None :: rest => nonNull rest
  end.

Section ParseScore.
(** The builtin [parseFloat], on the texts the pattern matches. *)
Variable parseFloat : string -> JsNumber.

Definition parseScore (scoreStr : option string) : option JsNumber :=
  match scoreStr with
  | None | Some EmptyString => None
  | Some s =>
      match firstNumber s with
      | Some token => Some (parseFloat token)
      | None => None
      end
  end.
End ParseScore.

(** ** Dashboard *)

Record Bar := {
  bar_name : string;
  bar_count : nat;
  bar_color : string
}.

Module Dashboard.
Section Dashboard.
Variable parseFloat : string -> JsNumber.
Variable files : list HomeworkFile.

Definition completed : nat :=
  List.length (filter (fun f => FileStatus_eqb (status f) COMPLETED) files).

Definition pending : nat :=
  List.length (filter (fun f => FileStatus_eqb (status f) PENDING) files).

Definition gradedFiles : list HomeworkFile :=
  filter (fun f => FileStatus_eqb (status f) COMPLETED && isSome (result f))
         files.

Definition numericScores : list JsNumber :=
  nonNull (map (fun f => parseScore parseFloat (option_map score (result f)))
               gradedFiles).

Definition distributionData : list Bar :=
  [ {| bar_name := "<60";
       bar_count := List.length (filter (fun s => below s 60) numericScores);
       bar_color := "#ef4444" |};
    {| bar_name := "60-69";
       bar_count := List.length (filter (fun s => atLeast s 60 && below s 70)
                                        numericScores);
       bar_color := "#f97316" |};
    {| bar_name := "70-79";
       bar_count := List.length (filter (fun s => atLeast s 70 && below s 80)
                                        numericScores);
       bar_color := "#eab308" |};
    {| bar_name := "80-89";
       bar_count := List.length (filter (fun s => atLeast s 80 && below s 90)
                                        numericScores);
       bar_color := "#3b82f6" |};
    {| bar_name := "90+";
       bar_count := List.length (filter (fun s => atLeast s 90) numericScores);
       bar_color := "#22c55e" |} ].

Definition qualitativeCount : Z :=
  (Z.of_nat (List.length gradedFiles) - Z.of_nat (List.length numericScores))%Z.

(** [disabled={isGrading || pending === 0}] of the start button. *)
Definition startDisabled (isGrading : bool) : bool :=
  isGrading || Nat.eqb pending 0.
End Dashboard.
End Dashboard.

(** ** ResultsView *)

Module ResultsView.
(** [keys.add(name)] on a [Set], which keeps insertion order. *)
Definition add (keys : list string) (name : string) : list string :=
  if existsb (String.eqb name) keys then keys else keys ++ [name].

Section ResultsView.
Variable files : list HomeworkFile.

Definition gradedFiles : list HomeworkFile :=
  filter (fun f => FileStatus_eqb (status f) COMPLETED) files.

(** [Array.from(keys)] after the two nested [forEach]. *)
Definition uniqueDetailKeys : list string :=
  fold_left
    (fun keys f =>
       match result f with
       | Some r =>
           match details r with
           | Some ds => fold_left (fun keys d => add keys (detail_name d)) ds keys
           | None => keys
           end
       | None => keys
       end)
    files [].

(** [disabled={gradedFiles.length === 0}] of the export button. *)
Definition exportDisabled : bool := Nat.eqb (List.length gradedFiles) 0.

(** [colSpan={5 + uniqueDetailKeys.length * 2}] of the empty row. *)
Definition colSpan : nat := 5 + List.length uniqueDetailKeys * 2.
End ResultsView.

(** [file.result?.details?.find(d => d.name === key)] *)
Definition detail (file : HomeworkFile) (key : string)
    : option GradingDetailItem :=
  match result file with
  | Some r =>
      match details r with
      | Some ds => find (fun d => String.eqb (detail_name d) key) ds
      | None => None
      end
  | None => None
  end.

(** [file.result?.summary || file.errorMessage || '-'] *)
Definition summaryCell (file : HomeworkFile) : string :=
  match option_map summary (result file) with
  | Some (String c s) => String c s
  | _ =>
      match errorMessage file with
      | Some (String c e) => String c e
      | _ => "-"
      end
  end.

(** [disabled={file.status === FileStatus.PROCESSING}] of the regrade
    button, and the condition under which the details button is shown. *)
Definition regradeDisabled (file : HomeworkFile) : bool :=
  FileStatus_eqb (status file) PROCESSING.

Definition detailsButtonShown (file : HomeworkFile) : bool :=
  FileStatus_eqb (status file) COMPLETED.
End ResultsView.

(** [ResultDetailModal]: [if (!file.result) return null], otherwise the
    result it lays out. *)
Definition ResultDetailModal (file : HomeworkFile) : option GradingResult :=
  result file.

(** ** Vocabulary of the statements *)

(** The item [f] once its grading call has settled with [o]. *)
Definition resolved (o : Outcome GradingResult) (f : HomeworkFile) : HomeworkFile :=
  match o with
  | Returned r => withStatus f COMPLETED (Some r) None
  | Threw e => withStatus f ERROR None (Some (catchMessage e))
  end.

(** A result only on a graded item, an error message only on a failed one. *)
Definition exclusive (s : FileStatus) (r : option GradingResult)
    (e : option string) : bool :=
  match r, e with
  | None, None => true
  | Some _, None => FileStatus_eqb s COMPLETED
  | None, Some _ => FileStatus_eqb s ERROR
  | Some _, Some _ => false
  end.

Definition exclusiveItem (f : HomeworkFile) : bool :=
  exclusive (status f) (result f) (errorMessage f).

(** Updates of the shapes the component's own handlers queue: status
    updates whose arguments agree with the status, appended items without
    stray fields. *)
Definition orchestrated (u : Update) : bool :=
  match u with
  | UpdateFileStatus _ s r e => exclusive s r e
  | AppendFiles processedFiles => forallb exclusiveItem processedFiles
  | _ => true
  end.


Definition appends (u : Update) : bool :=
  match u with
  | AppendFiles _ => true
  | _ => false
  end.

Definition hasId (l : list HomeworkFile) (i : string) : bool :=
  existsb (fun f => String.eqb (id f) i) l.

(** The items whose id is none of [l]'s. *)
Definition apartFrom (l : list HomeworkFile) (fs : list HomeworkFile)
    : list HomeworkFile :=
  filter (fun f => negb (hasId l (id f))) fs.




Definition isReturned {A} (o : Outcome A) : bool :=
  match o with
  | Returned _ => true
  | Threw _ => false
  end.

(** One call of [addFiles] with the environment it ran in. *)
Record AddCall := {
  call_random : nat -> string;
  call_readFileAsBase64 : File -> Outcome (option string);
  call_extractTextFromFile : File -> Outcome (option string);
  call_newFiles : list File
}.

Definition addFilesCall (c : AddCall) : Outcome (list Update) :=
  addFiles (call_random c) (call_readFileAsBase64 c)
           (call_extractTextFromFile c) (call_newFiles c).

(** The extraction services resolve on every file the call keeps. *)
Definition extractionResolves (c : AddCall) : bool :=
  forallb (fun f => isReturned (call_readFileAsBase64 c f)
                    && isReturned (call_extractTextFromFile c f))
          (filter notHidden (call_newFiles c)).

(** What a call leaves in the queue: nothing when its promise rejects. *)
Definition queued (o : Outcome (list Update)) : list Update :=
  match o with
  | Returned us => us
  | Threw _ => []
  end.

(** Calls listed in the order in which their handlers finish. *)
Definition addFilesCalls (cs : list AddCall) : list Update :=
  flat_map (fun c => queued (addFilesCall c)) cs.

(** An input and the item [addFiles] makes of it. *)
Definition createdFrom (f : File) (x : HomeworkFile) : Prop :=
  name x = file_name f /\ type x = file_type f /\ size x = file_size f /\
  status x = PENDING /\ result x = None /\ errorMessage x = None.

(** ** Sample data *)

Definition graded90 : GradingResult :=
  {| score := "90"; maxScore := "100"; summary := "solid work";
     strengths := ["clear structure"]; weaknesses := [];
     suggestions := ""; details := None |}.

Definition item (i n : string) (s : FileStatus) : HomeworkFile :=
  {| id := i; name := n; type := "text/plain"; size := 12%N;
     base64Data := Some "aGVsbG8gd29ybGQh"; textContent := Some "hello world!";
     status := s; result := None; errorMessage := None |}.

Definition stateOf (fs : list HomeworkFile) : AppState :=
  {| files := fs; rubric := "accuracy 40%, logic 30%";
     settings := DEFAULT_SETTINGS None; isGrading := false |}.

Definition upload (n : string) : File :=
  {| file_name := n; file_type := "text/plain"; file_size := 12%N;
     file_payload := "hello world!" |}.

(** Fails on the call with ordinal [bad], succeeds on every other call. *)
Definition failingAt (bad : nat) : Invoker :=
  fun k _ _ _ =>
    if Nat.eqb k bad then Threw (ErrorObject "rate limited")
    else Returned graded90.

Definition alwaysGraded : Invoker := fun _ _ _ _ => Returned graded90.

(** Another handler appends one item while the first turn is suspended. *)
Definition lateUpload : nat -> list Update :=
  fun k => if Nat.eqb k 0 then [AppendFiles [item "z9" "late.txt" PENDING]] else [].

Definition nothingElse : nat -> list Update := fun _ => [].

Definition threeItems : list HomeworkFile :=
  [item "a1" "one.txt" PENDING; item "b2" "two.txt" PENDING;
   item "c3" "three.txt" PENDING].

Definition mixedItems : list HomeworkFile :=
  [item "a1" "one.txt" PENDING;
   withStatus (item "b2" "two.txt" PENDING) COMPLETED (Some graded90) None;
   item "c3" "three.txt" PROCESSING;
   withStatus (item "d4" "four.txt" PENDING) ERROR None (Some "rate limited")].

Definition resolvesAbsent : File -> Outcome (option string) :=
  fun _ => Returned None.

Definition resolvesPayload : File -> Outcome (option string) :=
  fun f => Returned (Some (file_payload f)).

(** Rejects on one file name, resolves on the others. *)
Definition rejectsOn (bad : string) : File -> Outcome (option string) :=
  fun f => if String.eqb (file_name f) bad
           then Threw (ErrorObject "unreadable")
           else Returned (Some (file_payload f)).

(** A draw of 0.5, whose base-36 rendering is ["0.i"]. *)
Definition drawsHalf : nat -> string := fun _ => "0.i".

Definition drawsTwo : nat -> string :=
  fun k => if Nat.eqb k 0 then "0.4fzyo82mvyr" else "0.k2j1x9c0qdl".

Definition uploadBoth : AddCall :=
  {| call_random := drawsTwo;
     call_readFileAsBase64 := resolvesAbsent;
     call_extractTextFromFile := resolvesPayload;
     call_newFiles := [upload "a.txt"; upload "b.txt"] |}.

Definition firstCall : AddCall :=
  {| call_random := drawsHalf;
     call_readFileAsBase64 := resolvesAbsent;
     call_extractTextFromFile := resolvesPayload;
     call_newFiles := [upload "a.txt"; upload ".DS_Store"] |}.

Definition secondCall : AddCall :=
  {| call_random := drawsHalf;
     call_readFileAsBase64 := resolvesAbsent;
     call_extractTextFromFile := resolvesPayload;
     call_newFiles := [upload "b.txt"] |}.

(** ** Vocabulary of the further statements *)

Fixpoint hasDigit (s : string) : bool :=
  match s with
  | String c rest => isDigit c || hasDigit rest
  | EmptyString => false
  end.

Fixpoint allDigits (s : string) : bool :=
  match s with
  | String c rest => isDigit c && allDigits rest
  | EmptyString => true
  end.

(** Does [s] begin with a digit? *)
Definition digitAhead (s : string) : bool :=
  match s with
  | String c _ => isDigit c
  | EmptyString => false
  end.

(** Does [s] begin with a dot and a digit? *)
Definition fractionAhead (s : string) : bool :=
  match s with
  | String c (String d _) => Ascii.eqb c "."%char && isDigit d
  | _ => false
  end.

(** A run of digits, or two of them around a dot. *)
Definition decimalText (token : string) : Prop :=
  exists ds,
    allDigits ds = true /\ ds <> EmptyString /\
    (token = ds \/
     exists fs, allDigits fs = true /\ fs <> EmptyString /\
                token = (ds ++ String "."%char fs)%string).

(** A graded item has its result, a failed one its message. *)
Definition carries (s : FileStatus) (r : option GradingResult)
    (e : option string) : bool :=
  match s with
  | COMPLETED => isSome r
  | ERROR => isSome e
  | _ => true
  end.

Definition carriesItem (f : HomeworkFile) : bool :=
  carries (status f) (result f) (errorMessage f).

Definition carrying (u : Update) : bool :=
  match u with
  | UpdateFileStatus _ s r e => carries s r e
  | AppendFiles processedFiles => forallb carriesItem processedFiles
  | _ => true
  end.

Definition removes (u : Update) : bool :=
  match u with
  | RemoveFile _ => true
  | _ => false
  end.

(** Updates that neither add nor delete an item. *)
Definition keepsItems (u : Update) : bool := negb (appends u) && negb (removes u).

(** What an item is created with and keeps. *)
Definition creationData (f : HomeworkFile)
    : string * string * string * N * option string * option string :=
  (id f, name f, type f, size f, base64Data f, textContent f).

Definition terminal (f : HomeworkFile) : bool :=
  match status f with
  | COMPLETED | ERROR => true
  | _ => false
  end.

(** The items of [l]'s ids that are being graded. *)
Definition inFlight (l : list HomeworkFile) (fs : list HomeworkFile)
    : list HomeworkFile :=
  filter (fun f => FileStatus_eqb (status f) PROCESSING && hasId l (id f)) fs.

(** [{ ...p1, ...p2 }] on two patches. *)
Definition mergePatch (p1 p2 : PartialAppSettings) : PartialAppSettings :=
  {| p_apiKey := match p_apiKey p2 with Some a => Some a | None => p_apiKey p1 end;
     p_modelProvider := match p_modelProvider p2 with
                        | Some a => Some a
                        | None => p_modelProvider p1
                        end;
     p_customBaseUrl := match p_customBaseUrl p2 with
                        | Some a => Some a
                        | None => p_customBaseUrl p1
                        end;
     p_modelName := match p_modelName p2 with
                    | Some a => Some a
                    | None => p_modelName p1
                    end |}.

(** Every model chosen in the select is one of the options it shows at
    that moment. *)
Fixpoint selectable (evs : list SettingsEvent) (s : AppSettings) : bool :=
  match evs with
  | [] => true
  | ev :: rest =>
      match ev with
      | ModelSelect modelValue =>
          existsb (fun m => String.eqb (value m) modelValue) (filteredModels s)
      | _ => true
      end
      && selectable rest (settingsStep ev s)
  end.

Definition barTotal (bars : list Bar) : nat :=
  fold_right (fun b n => bar_count b + n) 0 bars.

(** The names of the details the items carry. *)
Definition detailNamed (files : list HomeworkFile) (key : string) : Prop :=
  exists f r ds d,
    In f files /\ result f = Some r /\ details r = Some ds /\
    In d ds /\ detail_name d = key.

(** A status update on the item [i]. *)
Definition statusUpdateOf (i : string) (u : Update) : bool :=
  match u with
  | UpdateFileStatus j _ _ _ => String.eqb j i
  | _ => false
  end.

(** ** Further sample data *)

Definition scored (sc : string) (ds : option (list GradingDetailItem))
    : GradingResult :=
  {| score := sc; maxScore := "100"; summary := "see details";
     strengths := []; weaknesses := []; suggestions := ""; details := ds |}.

Definition criterion (n sc : string) : GradingDetailItem :=
  {| detail_name := n; detail_score := Some sc; detail_feedback := None |}.

Definition gradedItems : list HomeworkFile :=
  [withStatus (item "a1" "one.txt" PENDING) COMPLETED
     (Some (scored "95/100" (Some [criterion "Logic" "9"; criterion "Style" "8"])))
     None;
   withStatus (item "b2" "two.txt" PENDING) COMPLETED
     (Some (scored "A" (Some [criterion "Style" "7"; criterion "Logic" "6";
                              criterion "Style" "5"])))
     None;
   withStatus (item "c3" "three.txt" PENDING) ERROR None (Some "rate limited");
   item "d4" "four.txt" PENDING].

(** A call whose reader rejects on the second of its three files. *)
Definition brokenCall : AddCall :=
  {| call_random := drawsTwo;
     call_readFileAsBase64 := rejectsOn "b.txt";
     call_extractTextFromFile := resolvesPayload;
     call_newFiles := [upload "a.txt"; upload "b.txt"; upload "c.txt"] |}.




(** Reads a text of digits as the integer it spells, anything else as 0. *)
Definition parseDigits (token : string) : JsNumber :=
  Finite (Z.of_nat
            (fold_left (fun n c => 10 * n + (nat_of_ascii c - 48))
                       (list_ascii_of_string token) 0))
         0.

(** ** Basic facts about the queue and the store *)

Lemma run_app (us vs : list Update) (st : AppState) :
  run (us ++ vs) st = run vs (run us st).
Proof.
  revert st; induction us as [|u us IH]; intro st; simpl; [reflexivity|].
  apply IH.
Qed.

Lemma trace_app (us vs : list Update) (st : AppState) :
  trace (us ++ vs) st = trace us st ++ trace vs (run us st).
Proof.
  revert st; induction us as [|u us IH]; intro st; simpl; [reflexivity|].
  now rewrite IH.
Qed.

Lemma setFiles_same (k : list HomeworkFile -> list HomeworkFile) (st : AppState) :
  k (files st) = files st -> setFiles k st = st.
Proof. destruct st; unfold setFiles; simpl; intros ->; reflexivity. Qed.

Lemma id_withStatus f s r e : id (withStatus f s r e) = id f.
Proof. reflexivity. Qed.

Lemma id_resolved o f : id (resolved o f) = id f.
Proof. now destruct o. Qed.

Lemma hasId_false (l : list HomeworkFile) (i : string) :
  hasId l i = false <-> ~ In i (map id l).
Proof.
  unfold hasId; induction l as [|f l IH]; simpl.
  - split; [intros _ []|reflexivity].
  - rewrite orb_false_iff, IH, String.eqb_neq. tauto.
Qed.

Lemma removeFile_absent (i : string) (fs : list HomeworkFile) :
  ~ In i (map id fs) -> removeFile i fs = fs.
Proof.
  unfold removeFile; induction fs as [|f fs IH]; simpl; intro H; [reflexivity|].
  destruct (String.eqb_spec (id f) i) as [E|E]; simpl.
  - exfalso; apply H; now left.
  - f_equal; apply IH; tauto.
Qed.

Lemma updateFileStatus_absent i s r e (fs : list HomeworkFile) :
  ~ In i (map id fs) -> updateFileStatus i s r e fs = fs.
Proof.
  unfold updateFileStatus; induction fs as [|f fs IH]; simpl; intro H; [reflexivity|].
  destruct (String.eqb_spec (id f) i) as [E|E].
  - exfalso; apply H; now left.
  - f_equal; apply IH; tauto.
Qed.

Lemma removeFile_twice (i : string) (fs : list HomeworkFile) :
  removeFile i (removeFile i fs) = removeFile i fs.
Proof.
  unfold removeFile; induction fs as [|f fs IH]; simpl; [reflexivity|].
  destruct (String.eqb (id f) i) eqn:E; simpl; [exact IH|].
  rewrite E; simpl; now rewrite IH.
Qed.

Lemma find_absent (i : string) (fs : list HomeworkFile) :
  ~ In i (map id fs) -> find (fun f => String.eqb (id f) i) fs = None.
Proof.
  induction fs as [|f fs IH]; simpl; intro H; [reflexivity|].
  destruct (String.eqb_spec (id f) i) as [E|E].
  - exfalso; apply H; now left.
  - apply IH; tauto.
Qed.

Lemma settle_absent i o (st : AppState) :
  ~ In i (map id (files st)) -> applyUpdate (settle i o) st = st.
Proof.
  intro H; destruct o; simpl; apply setFiles_same;
    now apply updateFileStatus_absent.
Qed.

(** C9. Operations on an id the store does not hold change nothing and
    cannot fault: [removeFile] and [updateFileStatus] return the collection
    they were given, [reGradeFile] invoked on such an id queues no update at
    all, and the updates of a [reGradeFile] whose item was deleted after its
    closure was made leave the state as it is.  Removing the same id twice
    gives the state that removing it once gives. *)
Theorem unknown_id_operations_are_noops (st : AppState) (i : string) :
  run [RemoveFile i; RemoveFile i] st = run [RemoveFile i] st /\
  (~ In i (map id (files st)) ->
   applyUpdate (RemoveFile i) st = st /\
   (forall s r e, applyUpdate (UpdateFileStatus i s r e) st = st) /\
   (forall g awaiting, clickReGrade g awaiting i st = []) /\
   (forall closure_files closure_rubric closure_settings g,
      run (reGradeFile closure_files closure_rubric closure_settings g [] i) st
      = st)).
Proof.
  split.
  - simpl; unfold setFiles; simpl; now rewrite removeFile_twice.
  - intro H; repeat split.
    + simpl; apply setFiles_same; now apply removeFile_absent.
    + intros s r e; simpl; apply setFiles_same; now apply updateFileStatus_absent.
    + intros g awaiting; unfold clickReGrade, reGradeFile.
      now rewrite find_absent.
    + intros cf cr cs g; unfold reGradeFile.
      destruct (find _ cf) as [file|]; [|reflexivity].
      simpl run.
      assert (E : setFiles (updateFileStatus i PROCESSING None None) st = st)
        by (apply setFiles_same; now apply updateFileStatus_absent).
      rewrite E; now apply settle_absent.
Qed.

Lemma unknown_id_operations_are_noops_witness :
  ~ In "zz" (map id (files (stateOf threeItems))) /\
  applyUpdate (RemoveFile "zz") (stateOf threeItems) = stateOf threeItems.
Proof.
  assert (H : ~ In "zz" (map id (files (stateOf threeItems)))).
  { simpl; intros [E|[E|[E|[]]]]; discriminate E. }
  split; [exact H|].
  exact (proj1 (proj2 (unknown_id_operations_are_noops (stateOf threeItems) "zz") H)).
Defined.



Lemma files_settle i o (st : AppState) :
  files (applyUpdate (settle i o) st)
  = map (fun f => if String.eqb (id f) i then resolved o f else f) (files st).
Proof. now destruct o. Qed.



Lemma offeredFor_first (p : ModelProvider) (m : ModelOption) (rest : list ModelOption) :
  filter (fun m => ModelProvider_eqb (provider m) p) AVAILABLE_MODELS = m :: rest ->
  offeredFor p (value m) = true.
Proof.
  intro H.
  assert (Hin : In m (filter (fun m => ModelProvider_eqb (provider m) p)
                             AVAILABLE_MODELS)) by (rewrite H; now left).
  apply filter_In in Hin; destruct Hin as [Hin Hp].
  unfold offeredFor; apply existsb_exists; exists m; split; [exact Hin|].
  cbv beta; now rewrite Hp, String.eqb_refl.
Qed.

(** C7, as the code has it.  [updateSettings] only merges: every field of
    the result is the patch's when the patch carries it and the previous one
    otherwise, so a patch without [modelName] leaves the model name alone
    whatever provider it sets.  The reset belongs to the settings view:
    the patch [handleProviderChange] builds for a provider sets that
    provider, the first model [AVAILABLE_MODELS] lists for it, and as base
    URL that model's default when it has one and the URL of the current
    render otherwise; the API key stays.  For Gemini this is
    gemini-2.5-flash with the base URL kept, for the custom provider
    qwen-plus with the DashScope URL. *)
Theorem updateSettings_merges_handler_resets
    (patch : PartialAppSettings) (prev closure_settings : AppSettings)
    (p : ModelProvider) :
  updateSettings patch prev
  = {| apiKey := orElse (p_apiKey patch) (apiKey prev);
       modelProvider := orElse (p_modelProvider patch) (modelProvider prev);
       customBaseUrl := orElse (p_customBaseUrl patch) (customBaseUrl prev);
       modelName := orElse (p_modelName patch) (modelName prev) |} /\
  modelName (updateSettings
               {| p_apiKey := p_apiKey patch; p_modelProvider := Some p;
                  p_customBaseUrl := p_customBaseUrl patch;
                  p_modelName := None |} prev) = modelName prev /\
  modelProvider (updateSettings (handleProviderChange closure_settings p) prev) = p /\
  offeredFor p (modelName (updateSettings (handleProviderChange closure_settings p)
                                          prev)) = true /\
  apiKey (updateSettings (handleProviderChange closure_settings p) prev)
  = apiKey prev /\
  (exists firstModel others,
     filter (fun m => ModelProvider_eqb (provider m) p) AVAILABLE_MODELS
     = firstModel :: others /\
     modelName (updateSettings (handleProviderChange closure_settings p) prev)
     = value firstModel /\
     customBaseUrl (updateSettings (handleProviderChange closure_settings p) prev)
     = match defaultBaseUrl firstModel with
       | Some (String c url) => Some (String c url)
       | _ => customBaseUrl closure_settings
       end) /\
  match p with
  | GEMINI =>
      modelName (updateSettings (handleProviderChange closure_settings p) prev)
      = "gemini-2.5-flash" /\
      customBaseUrl (updateSettings (handleProviderChange closure_settings p) prev)
      = customBaseUrl closure_settings
  | CUSTOM =>
      modelName (updateSettings (handleProviderChange closure_settings p) prev)
      = "qwen-plus" /\
      customBaseUrl (updateSettings (handleProviderChange closure_settings p) prev)
      = Some "https://dashscope.aliyuncs.com/compatible-mode/v1"
  end.
Proof.
  split; [reflexivity|split; [reflexivity|]].
  split; [now destruct p|].
  split.
  { unfold handleProviderChange.
    destruct (filter _ AVAILABLE_MODELS) as [|m rest] eqn:E.
    - destruct p; discriminate E.
    - simpl; now apply offeredFor_first with rest. }
  split; [now destruct p|].
  split; [|destruct p; split; reflexivity].
  destruct p; eexists; eexists; (split; [reflexivity|split; reflexivity]).
Qed.

(** C7 as stated fails: merging a patch that only names another provider
    keeps the Gemini model name, which is not offered for that provider. *)
Lemma updateSettings_does_not_reset_modelName :
  let s := updateSettings {| p_apiKey := None; p_modelProvider := Some CUSTOM;
                             p_customBaseUrl := None; p_modelName := None |}
                          (DEFAULT_SETTINGS None) in
  modelProvider s = CUSTOM /\
  modelName s = "gemini-2.5-flash" /\
  offeredFor (modelProvider s) (modelName s) = false.
Proof. repeat split. Qed.

(** ** addFiles *)

Section AddFilesFacts.
Variable random : nat -> string.
Variables readFileAsBase64 extractTextFromFile : File -> Outcome (option string).

Lemma processFiles_returned (validFiles : list File) :
  forall k items,
    processFiles random readFileAsBase64 extractTextFromFile k validFiles
    = Returned items ->
    Forall2 (fun f x =>
               createdFrom f x /\
               readFileAsBase64 f = Returned (base64Data x) /\
               extractTextFromFile f = Returned (textContent x))
            validFiles items /\
    map id items
    = map (fun j => freshId (random j)) (seq k (List.length validFiles)).
Proof.
  induction validFiles as [|f rest IH]; intros k items; simpl.
  - intro H; injection H as <-; split; [constructor|reflexivity].
  - unfold processFile.
    destruct (readFileAsBase64 f) as [b|e] eqn:Eb; simpl; [|discriminate].
    destruct (extractTextFromFile f) as [t|e] eqn:Et; simpl; [|discriminate].
    destruct (processFiles _ _ _ (S k) rest) as [xs|e] eqn:Er; simpl;
      [|discriminate].
    intro H; injection H as <-.
    destruct (IH _ _ Er) as [H2 Hids]; split.
    + constructor; [|exact H2].
      unfold createdFrom; simpl; repeat split; assumption.
    + simpl; now rewrite Hids.
Qed.

Lemma processFiles_threw (validFiles : list File) :
  forall k e,
    processFiles random readFileAsBase64 extractTextFromFile k validFiles
    = Threw e ->
    exists f, In f validFiles /\
              (readFileAsBase64 f = Threw e \/ extractTextFromFile f = Threw e).
Proof.
  induction validFiles as [|f rest IH]; intros k e; simpl; [discriminate|].
  unfold processFile.
  destruct (readFileAsBase64 f) as [b|e1] eqn:Eb; simpl.
  - destruct (extractTextFromFile f) as [t|e2] eqn:Et; simpl.
    + destruct (processFiles _ _ _ (S k) rest) as [xs|e3] eqn:Er; simpl;
        [discriminate|].
      intro H; injection H as <-.
      destruct (IH _ _ Er) as [f' [Hin H]]; exists f'; split; [now right|exact H].
    + intro H; injection H as <-; exists f; split; [now left|now right].
  - intro H; injection H as <-; exists f; split; [now left|now left].
Qed.

Lemma processFiles_resolves (validFiles : list File) :
  forallb (fun f => isReturned (readFileAsBase64 f)
                    && isReturned (extractTextFromFile f))
          validFiles = true ->
  forall k, exists items,
    processFiles random readFileAsBase64 extractTextFromFile k validFiles
    = Returned items.
Proof.
  induction validFiles as [|f rest IH]; simpl; intros H k.
  - now exists [].
  - apply andb_prop in H; destruct H as [Hf Hrest].
    apply andb_prop in Hf; destruct Hf as [Hb Ht].
    unfold processFile.
    destruct (readFileAsBase64 f) as [b|e]; [|discriminate].
    destruct (extractTextFromFile f) as [t|e]; [|discriminate].
    destruct (IH Hrest (S k)) as [xs ->]; simpl; eauto.
Qed.

(** C6, as the code has it.  [addFiles] has no handler around the
    extraction services.  When they resolve, also with an absent value,
    the call queues one append holding an item per kept input, whose
    content fields are exactly what the services resolved with; when one
    of them raises on a kept input, the call itself ends with that fault
    and queues nothing. *)
Theorem addFiles_content_and_faults (newFiles : list File) :
  match addFiles random readFileAsBase64 extractTextFromFile newFiles with
  | Returned us =>
      exists items,
        us = [AppendFiles items] /\
        Forall2 (fun f x =>
                   createdFrom f x /\
                   readFileAsBase64 f = Returned (base64Data x) /\
                   extractTextFromFile f = Returned (textContent x))
                (filter notHidden newFiles) items
  | Threw e =>
      exists f, In f newFiles /\ notHidden f = true /\
                (readFileAsBase64 f = Threw e \/ extractTextFromFile f = Threw e)
  end.
Proof.
  unfold addFiles.
  destruct (processFiles _ _ _ 0 (filter notHidden newFiles)) as [items|e] eqn:E;
    simpl.
  - exists items; split; [reflexivity|].
    exact (proj1 (processFiles_returned _ _ E)).
  - destruct (processFiles_threw _ _ E) as [f [Hin H]].
    apply filter_In in Hin; destruct Hin as [Hin Hv].
    now exists f.
Qed.
End AddFilesFacts.

(** C6 as stated fails: with a reader that raises on the second of three
    inputs the call ends with that fault, and neither that input nor the
    other two become items. *)
Lemma addFiles_propagates_extraction_fault :
  addFiles drawsHalf (rejectsOn "b.txt") resolvesPayload
           [upload "a.txt"; upload "b.txt"; upload "c.txt"]
  = Threw (ErrorObject "unreadable") /\
  files (run (queued (addFiles drawsHalf (rejectsOn "b.txt") resolvesPayload
                               [upload "a.txt"; upload "b.txt"; upload "c.txt"]))
             (stateOf [])) = [].
Proof. split; reflexivity. Qed.

Lemma addFilesCall_resolves (c : AddCall) :
  extractionResolves c = true ->
  exists items,
    addFilesCall c = Returned [AppendFiles items] /\
    Forall2 createdFrom (filter notHidden (call_newFiles c)) items.
Proof.
  intro H; unfold addFilesCall, addFiles.
  destruct (processFiles_resolves (call_random c) _ _ _ H 0) as [items E].
  rewrite E; simpl; exists items; split; [reflexivity|].
  destruct (processFiles_returned _ _ _ _ _ E) as [H2 _].
  eapply Forall2_impl; [|exact H2]; simpl; tauto.
Qed.

Lemma addFilesCall_rejects (c : AddCall) :
  extractionResolves c = false -> queued (addFilesCall c) = [].
Proof.
  intro H; unfold addFilesCall, addFiles.
  destruct (processFiles _ _ _ 0 (filter notHidden (call_newFiles c)))
    as [items|e] eqn:E; [|reflexivity].
  destruct (processFiles_returned _ _ _ _ _ E) as [H2 _].
  assert (Hall : extractionResolves c = true).
  { unfold extractionResolves.
    revert H2; generalize (filter notHidden (call_newFiles c)); clear.
    intros l H2; induction H2 as [|f x l xs [_ [Hb Ht]] _ IH]; [reflexivity|].
    simpl; now rewrite Hb, Ht, IH. }
  rewrite Hall in H; discriminate H.
Qed.

(** C5, as the code has it.  After any sequence of [addFiles] calls the
    store is the previous collection, in its order, followed by one item
    per input whose name does not begin with a dot of the calls whose
    extraction services resolved, in the order of the calls and of the
    inputs within each call; a call in which a service rejects adds none
    of its inputs.  Each new item carries the input's name, type and size,
    is Pending and has neither result nor error message.  When the services
    resolve in every call, this is one item per such input of all calls. *)
Theorem addFiles_appends_in_order (cs : list AddCall) (st : AppState) :
  exists created,
    files (run (addFilesCalls cs) st) = files st ++ created /\
    Forall2 createdFrom
            (filter notHidden
                    (flat_map call_newFiles (filter extractionResolves cs)))
            created /\
    (forallb extractionResolves cs = true ->
     Forall2 createdFrom (filter notHidden (flat_map call_newFiles cs)) created /\
     List.length created
     = List.length (filter notHidden (flat_map call_newFiles cs))).
Proof.
  assert (Hmain : forall cs st, exists created,
             files (run (addFilesCalls cs) st) = files st ++ created /\
             Forall2 createdFrom
                     (filter notHidden
                             (flat_map call_newFiles
                                       (filter extractionResolves cs)))
                     created).
  { clear; induction cs as [|c cs IH]; intro st.
    - exists []; simpl; rewrite app_nil_r; split; constructor.
    - destruct (extractionResolves c) eqn:Hc.
      + destruct (addFilesCall_resolves c Hc) as [items [E Hitems]].
        assert (Hq : addFilesCalls (c :: cs)
                     = [AppendFiles items] ++ addFilesCalls cs)
          by (unfold addFilesCalls; simpl; now rewrite E).
        rewrite Hq, run_app.
        change (run [AppendFiles items] st)
          with (applyUpdate (AppendFiles items) st).
        destruct (IH (applyUpdate (AppendFiles items) st))
          as [created [Hfiles Hcreated]].
        exists (items ++ created); rewrite Hfiles; simpl files.
        simpl filter; rewrite Hc.
        change (flat_map call_newFiles (c :: filter extractionResolves cs))
          with (call_newFiles c
                ++ flat_map call_newFiles (filter extractionResolves cs)).
        rewrite filter_app, <- app_assoc; split; [reflexivity|].
        now apply Forall2_app.
      + assert (Hq : addFilesCalls (c :: cs) = addFilesCalls cs)
          by (unfold addFilesCalls; simpl;
              now rewrite (addFilesCall_rejects c Hc)).
        rewrite Hq; simpl filter; rewrite Hc; apply IH. }
  destruct (Hmain cs st) as [created [Hfiles Hcreated]].
  exists created; split; [exact Hfiles|split; [exact Hcreated|]].
  intro Hall.
  assert (E : filter extractionResolves cs = cs).
  { clear Hfiles Hcreated Hmain; induction cs as [|c cs' IHc]; [reflexivity|].
    simpl in *; apply andb_prop in Hall; destruct Hall as [Hc Hrest].
    rewrite Hc; f_equal; now apply IHc. }
  rewrite E in Hcreated; split; [exact Hcreated|].
  symmetry; eapply Forall2_length; exact Hcreated.
Qed.

Lemma addFiles_appends_in_order_witness :
  exists created,
    files (run (addFilesCalls [firstCall; secondCall]) (stateOf mixedItems))
    = mixedItems ++ created /\
    Forall2 createdFrom [upload "a.txt"; upload "b.txt"] created /\
    List.length created = 2.
Proof.
  destruct (addFiles_appends_in_order [firstCall; secondCall]
                                      (stateOf mixedItems))
    as [created [Hfiles [_ Hall]]].
  destruct (Hall eq_refl) as [Hcreated Hlen].
  exists created; split; [exact Hfiles|split; [exact Hcreated|exact Hlen]].
Defined.

(** C5 as stated fails: of two calls with four inputs whose names do not
    begin with a dot, the second has a reader that rejects on one input;
    the store then holds the item of the first call only. *)
Lemma rejected_call_adds_no_item :
  List.length (filter notHidden (flat_map call_newFiles [firstCall; brokenCall]))
  = 4 /\
  map name (files (run (addFilesCalls [firstCall; brokenCall]) (stateOf [])))
  = ["a.txt"].
Proof. split; reflexivity. Qed.

Lemma ids_updateFileStatus i s r e (fs : list HomeworkFile) :
  map id (updateFileStatus i s r e fs) = map id fs.
Proof.
  unfold updateFileStatus; rewrite map_map; apply map_ext.
  intro f; now destruct (String.eqb (id f) i).
Qed.

Lemma NoDup_ids_filter (p : HomeworkFile -> bool) (fs : list HomeworkFile) :
  NoDup (map id fs) -> NoDup (map id (filter p fs)).
Proof.
  induction fs as [|f fs IH]; simpl; intro H; [constructor|].
  inversion H as [|? ? Hnotin Hrest]; subst.
  destruct (p f); simpl; [|now apply IH].
  constructor; [|now apply IH].
  intro Hin; apply Hnotin.
  apply in_map_iff in Hin; destruct Hin as [x [Hx Hin]].
  apply filter_In in Hin; rewrite <- Hx; apply in_map; tauto.
Qed.

(** C8, as the code has it.  An id is the nine characters that follow the
    first two of the rendering of a random draw, and nothing compares it
    with the ids in use.  Removing items and updating a status keep the ids
    pairwise distinct; an [addFiles] call extends the ids of the store with
    the ids drawn for its kept inputs, so the ids stay pairwise distinct
    exactly when the drawn ids differ from one another and from those of the
    store. *)
Theorem ids_distinct_while_draws_distinct (st : AppState) :
  NoDup (map id (files st)) ->
  (forall u, appends u = false -> NoDup (map id (files (applyUpdate u st)))) /\
  (forall random readFileAsBase64 extractTextFromFile newFiles us,
     addFiles random readFileAsBase64 extractTextFromFile newFiles = Returned us ->
     let drawn := map (fun k => freshId (random k))
                      (seq 0 (List.length (filter notHidden newFiles))) in
     map id (files (run us st)) = map id (files st) ++ drawn /\
     (NoDup (map id (files (run us st))) <-> NoDup (map id (files st) ++ drawn))).
Proof.
  intro Hst; split.
  - intros [items|i|i s r e|patch|r|b] Hu; simpl; try exact Hst.
    + discriminate Hu.
    + now apply NoDup_ids_filter.
    + now rewrite ids_updateFileStatus.
  - intros random rd ex newFiles us E drawn.
    unfold addFiles in E.
    destruct (processFiles _ _ _ 0 (filter notHidden newFiles)) as [items|e] eqn:Ep;
      simpl in E; [|discriminate].
    injection E as <-.
    destruct (processFiles_returned _ _ _ _ _ Ep) as [_ Hids].
    assert (Heq : map id (files (run [AppendFiles items] st))
                  = map id (files st) ++ drawn).
    { simpl; rewrite map_app; f_equal; exact Hids. }
    split; [exact Heq|now rewrite Heq].
Qed.

Lemma ids_distinct_while_draws_distinct_witness :
  NoDup (map id (files (stateOf threeItems))) /\
  NoDup (map id (files (applyUpdate (RemoveFile "b2") (stateOf threeItems)))) /\
  exists us,
    addFiles drawsHalf resolvesAbsent resolvesPayload [upload "a.txt"]
    = Returned us /\
    map id (files (run us (stateOf threeItems))) = ["a1"; "b2"; "c3"; "i"].
Proof.
  assert (H : NoDup (map id (files (stateOf threeItems)))).
  { simpl; repeat constructor; simpl; intuition discriminate. }
  split; [exact H|split].
  - apply (proj1 (ids_distinct_while_draws_distinct (stateOf threeItems) H)
                 (RemoveFile "b2")).
    reflexivity.
  - eexists; split; [reflexivity|].
    apply (proj2 (ids_distinct_while_draws_distinct (stateOf threeItems) H)
                 drawsHalf resolvesAbsent resolvesPayload [upload "a.txt"]).
    reflexivity.
Defined.

(** C8 as stated fails: two calls that each draw 0.5 give both new items
    the id ["i"]. *)
Lemma addFiles_can_repeat_an_id :
  map id (files (run (addFilesCalls [firstCall; secondCall]) (stateOf [])))
  = ["i"; "i"] /\
  ~ NoDup (map id (files (run (addFilesCalls [firstCall; secondCall])
                              (stateOf [])))).
Proof.
  split; [reflexivity|].
  simpl; intro H; inversion H as [|? ? Hnotin _]; apply Hnotin; now left.
Qed.

(** ** Result and error message *)

Lemma exclusive_applyUpdate (u : Update) (st : AppState) :
  forallb exclusiveItem (files st) = true ->
  orchestrated u = true ->
  forallb exclusiveItem (files (applyUpdate u st)) = true.
Proof.
  intros Hst Hu; destruct u as [items|i|i s r e|patch|r|b]; simpl in *;
    try exact Hst.
  - rewrite forallb_app, Hst; exact Hu.
  - apply forallb_forall; intros f Hin.
    apply filter_In in Hin; destruct Hin as [Hin _].
    rewrite forallb_forall in Hst; now apply Hst.
  - apply forallb_forall; intros f' Hin.
    apply in_map_iff in Hin; destruct Hin as [f [Hf Hin]]; subst f'.
    rewrite forallb_forall in Hst.
    destruct (String.eqb (id f) i); [exact Hu|now apply Hst].
Qed.

Lemma exclusive_trace (us : list Update) :
  forall st,
    forallb exclusiveItem (files st) = true ->
    forallb orchestrated us = true ->
    Forall (fun s => forallb exclusiveItem (files s) = true) (trace us st).
Proof.
  induction us as [|u us IH]; intros st Hst Hus; simpl; [constructor|].
  simpl in Hus; apply andb_prop in Hus; destruct Hus as [Hu Hus].
  pose proof (exclusive_applyUpdate u st Hst Hu) as H1.
  constructor; [exact H1|now apply IH].
Qed.

Lemma orchestrated_settle i o : orchestrated (settle i o) = true.
Proof. now destruct o. Qed.

Lemma orchestrated_gradeEach cr cs g (awaiting : nat -> list Update) :
  (forall k, forallb orchestrated (awaiting k) = true) ->
  forall todo k, forallb orchestrated (gradeEach cr cs g awaiting k todo) = true.
Proof.
  intros Haw todo; induction todo as [|file rest IH]; intro k; simpl;
    [reflexivity|].
  rewrite forallb_app, Haw; simpl.
  now rewrite orchestrated_settle, IH.
Qed.

Lemma orchestrated_startBatchGrading cf cr cs g (awaiting : nat -> list Update) :
  (forall k, forallb orchestrated (awaiting k) = true) ->
  forallb orchestrated (startBatchGrading cf cr cs g awaiting) = true.
Proof.
  intro Haw; unfold startBatchGrading; simpl.
  rewrite forallb_app, orchestrated_gradeEach by exact Haw; reflexivity.
Qed.

Lemma orchestrated_reGradeFile cf cr cs g (awaiting : list Update) i :
  forallb orchestrated awaiting = true ->
  forallb orchestrated (reGradeFile cf cr cs g awaiting i) = true.
Proof.
  intro Haw; unfold reGradeFile.
  destruct (find _ cf) as [file|]; [|reflexivity]; simpl.
  rewrite forallb_app, Haw; simpl; now rewrite orchestrated_settle.
Qed.

Lemma Forall2_right {A B} (R : A -> B -> Prop) (P : B -> Prop) l1 l2 :
  (forall a b, R a b -> P b) -> Forall2 R l1 l2 -> Forall P l2.
Proof. intros HR H; induction H; constructor; eauto. Qed.

Lemma orchestrated_addFiles random rd ex newFiles :
  forallb orchestrated (queued (addFiles random rd ex newFiles)) = true.
Proof.
  unfold addFiles.
  destruct (processFiles _ _ _ 0 (filter notHidden newFiles)) as [items|e] eqn:E;
    simpl; [|reflexivity].
  rewrite andb_true_r; apply forallb_forall; intros x Hx.
  destruct (processFiles_returned _ _ _ _ _ E) as [H2 _].
  revert x Hx; apply Forall_forall.
  eapply Forall2_right; [|exact H2].
  intros f x [[_ [_ [_ [Hs [Hr He]]]]] _].
  unfold exclusiveItem; now rewrite Hr, He.
Qed.

(** C3, as the code has it.  [updateFileStatus] stores the status, result
    and error message it is called with, in one update, on every item with
    the id; an argument left out clears its field, so the Processing update
    of the handlers clears both.  It does not itself drop an argument that
    does not suit the status.  The updates the component's own handlers
    queue ([addFiles], [removeFile], [startBatchGrading], [reGradeFile])
    always carry suitable arguments, and after each of them every item has a
    result only if Completed, an error message only if Error, never both. *)
Theorem exclusivity_of_handler_updates
    (st : AppState) (closure_files : list HomeworkFile) (closure_rubric : string)
    (closure_settings : AppSettings) (g : Invoker)
    (awaiting : nat -> list Update) (awaitingOne : list Update) (i : string)
    (random : nat -> string)
    (readFileAsBase64 extractTextFromFile : File -> Outcome (option string))
    (newFiles : list File) :
  forallb exclusiveItem (files st) = true ->
  (forall k, forallb orchestrated (awaiting k) = true) ->
  forallb orchestrated awaitingOne = true ->
  let holdsAfterEach us :=
    Forall (fun s => forallb exclusiveItem (files s) = true) (trace us st) in
  holdsAfterEach (startBatchGrading closure_files closure_rubric closure_settings
                                    g awaiting) /\
  holdsAfterEach (reGradeFile closure_files closure_rubric closure_settings
                              g awaitingOne i) /\
  holdsAfterEach (queued (addFiles random readFileAsBase64 extractTextFromFile
                                   newFiles)) /\
  holdsAfterEach [RemoveFile i] /\
  (forall s r e,
     files (applyUpdate (UpdateFileStatus i s r e) st)
     = map (fun f => if String.eqb (id f) i
                     then {| id := id f; name := name f; type := type f;
                             size := size f; base64Data := base64Data f;
                             textContent := textContent f;
                             status := s; result := r; errorMessage := e |}
                     else f)
           (files st)).
Proof.
  intros Hst Haw Haw1 holdsAfterEach; unfold holdsAfterEach.
  repeat split.
  - apply exclusive_trace; [exact Hst|now apply orchestrated_startBatchGrading].
  - apply exclusive_trace; [exact Hst|now apply orchestrated_reGradeFile].
  - apply exclusive_trace; [exact Hst|apply orchestrated_addFiles].
  - apply exclusive_trace; [exact Hst|reflexivity].
Qed.

Lemma exclusivity_of_handler_updates_witness :
  Forall (fun s => forallb exclusiveItem (files s) = true)
         (trace (startBatchGrading mixedItems "rubric" (DEFAULT_SETTINGS None)
                                   (failingAt 1) nothingElse)
                (stateOf mixedItems)).
Proof.
  apply (exclusivity_of_handler_updates (stateOf mixedItems) mixedItems "rubric"
           (DEFAULT_SETTINGS None) (failingAt 1) nothingElse [] "a1"
           drawsHalf resolvesAbsent resolvesPayload []);
    reflexivity.
Defined.

(** C3 as stated fails: called with a result and an error message at once,
    [updateFileStatus] stores both, under a status that suits neither. *)
Lemma updateFileStatus_can_store_both :
  forallb exclusiveItem (files (stateOf threeItems)) = true /\
  map (fun f => (status f, result f, errorMessage f))
      (files (applyUpdate (UpdateFileStatus "a1" PENDING (Some graded90)
                                            (Some "late"))
                          (stateOf threeItems)))
  = [(PENDING, Some graded90, Some "late"); (PENDING, None, None);
     (PENDING, None, None)] /\
  forallb exclusiveItem
          (files (applyUpdate (UpdateFileStatus "a1" PENDING (Some graded90)
                                                (Some "late"))
                              (stateOf threeItems))) = false.
Proof. repeat split. Qed.

(** ** The busy flag *)







(** ** The batch, left undisturbed *)

Lemma resolved_processing o f :
  resolved o (withStatus f PROCESSING None None) = resolved o f.
Proof. now destruct o. Qed.


Lemma ids_filter_incl (p : HomeworkFile -> bool) (fs : list HomeworkFile) i :
  In i (map id (filter p fs)) -> In i (map id fs).
Proof.
  intro H; apply in_map_iff in H; destruct H as [x [Hx Hin]].
  apply filter_In in Hin; rewrite <- Hx; apply in_map; tauto.
Qed.

(** One turn of the loop with nothing queued in between. *)
Lemma files_turn cr cs (g : Invoker) k file (st : AppState) :
  files (run [UpdateFileStatus (id file) PROCESSING None None;
              settle (id file) (g k file cr cs)] st)
  = map (fun f => if String.eqb (id f) (id file)
                  then resolved (g k file cr cs) f else f)
        (files st).
Proof.
  simpl run; rewrite files_settle; simpl files.
  unfold updateFileStatus; rewrite map_map; apply map_ext; intro f.
  destruct (String.eqb (id f) (id file)) eqn:E; [|now rewrite E].
  rewrite id_withStatus, E; apply resolved_processing.
Qed.



Lemma length_updateFileStatus i s r e (fs : list HomeworkFile) :
  List.length (updateFileStatus i s r e fs) = List.length fs.
Proof. unfold updateFileStatus; apply length_map. Qed.

Lemma length_gradeEach_undisturbed cr cs (g : Invoker) (todo : list HomeworkFile) :
  forall k st,
    List.length (files (run (gradeEach cr cs g (fun _ => []) k todo) st))
    = List.length (files st).
Proof.
  induction todo as [|file rest IH]; intros k st; [reflexivity|].
  simpl gradeEach; simpl run; rewrite IH.
  destruct (g k file cr cs); simpl; now rewrite !length_updateFileStatus.
Qed.





(** Scenario D of the specification. *)
Example scenario_D :
  map status (files (run (clickStartBatch (failingAt 1) (fun _ => [])
                                          (stateOf threeItems))
                         (stateOf threeItems)))
  = [COMPLETED; ERROR; COMPLETED].
Proof. reflexivity. Qed.

(** Scenario A: two uploads, both graded with score 90. *)
Example scenario_A :
  let st := run (addFilesCalls [uploadBoth]) (stateOf []) in
  map (fun f => (id f, name f, status f)) (files st)
  = [("4fzyo82mv", "a.txt", PENDING); ("k2j1x9c0q", "b.txt", PENDING)] /\
  map (fun f => (name f, status f, result f))
      (files (run (clickStartBatch alwaysGraded (fun _ => []) st) st))
  = [("a.txt", COMPLETED, Some graded90); ("b.txt", COMPLETED, Some graded90)] /\
  isGrading (run (clickStartBatch alwaysGraded (fun _ => []) st) st) = false.
Proof. repeat split. Qed.

(** Scenario B: the grader raises "rate limited". *)
Example scenario_B :
  map (fun f => (status f, result f, errorMessage f))
      (files (run (clickStartBatch (failingAt 0) (fun _ => [])
                                   (stateOf [item "a1" "one.txt" PENDING]))
                  (stateOf [item "a1" "one.txt" PENDING])))
  = [(ERROR, None, Some "rate limited")].
Proof. reflexivity. Qed.

(** Scenario C: regrading the failed item leaves the others alone. *)
Example scenario_C :
  map (fun f => (id f, status f))
      (files (run (clickReGrade alwaysGraded [] "d4" (stateOf mixedItems))
                  (stateOf mixedItems)))
  = [("a1", PENDING); ("b2", COMPLETED); ("c3", PROCESSING); ("d4", COMPLETED)].
Proof. reflexivity. Qed.

(** Scenario E: removing an id the store does not hold. *)
Example scenario_E :
  run [RemoveFile "zz"] (stateOf mixedItems) = stateOf mixedItems.
Proof. reflexivity. Qed.





(** ** The batch among other handlers *)

Section ApartFrom.
Variable l : list HomeworkFile.

Lemma apartFrom_app (xs ys : list HomeworkFile) :
  apartFrom l (xs ++ ys) = apartFrom l xs ++ apartFrom l ys.
Proof. apply filter_app. Qed.

Lemma apartFrom_removeFile (i : string) (fs : list HomeworkFile) :
  apartFrom l (removeFile i fs) = removeFile i (apartFrom l fs).
Proof.
  unfold apartFrom, removeFile; induction fs as [|f fs IH]; simpl;
    [reflexivity|].
  destruct (String.eqb (id f) i) eqn:E, (hasId l (id f)) eqn:H; simpl;
    rewrite ?E, ?H; simpl; now rewrite IH.
Qed.

Lemma apartFrom_updateFileStatus i s r e (fs : list HomeworkFile) :
  apartFrom l (updateFileStatus i s r e fs)
  = updateFileStatus i s r e (apartFrom l fs).
Proof.
  unfold apartFrom, updateFileStatus; induction fs as [|f fs IH]; simpl;
    [reflexivity|].
  assert (E : id (if String.eqb (id f) i then withStatus f s r e else f) = id f)
    by now destruct (String.eqb (id f) i).
  rewrite E; destruct (hasId l (id f)); simpl; now rewrite IH.
Qed.

(** A status update on one of [l]'s ids is invisible on the other items. *)
Lemma apartFrom_update_inside i s r e (fs : list HomeworkFile) :
  hasId l i = true ->
  apartFrom l (updateFileStatus i s r e fs) = apartFrom l fs.
Proof.
  intro Hi; rewrite apartFrom_updateFileStatus.
  apply updateFileStatus_absent.
  intro Hin; apply in_map_iff in Hin; destruct Hin as [f [Hf Hin]].
  apply filter_In in Hin; destruct Hin as [_ Hout].
  rewrite Hf, Hi in Hout; discriminate Hout.
Qed.

Lemma apartFrom_applyUpdate (u : Update) (st1 st2 : AppState) :
  apartFrom l (files st1) = apartFrom l (files st2) ->
  apartFrom l (files (applyUpdate u st1))
  = apartFrom l (files (applyUpdate u st2)).
Proof.
  intro H; destruct u as [items|i|i s r e|patch|r|b]; simpl; try exact H.
  - now rewrite !apartFrom_app, H.
  - now rewrite !apartFrom_removeFile, H.
  - now rewrite !apartFrom_updateFileStatus, H.
Qed.

Lemma apartFrom_run (us : list Update) :
  forall st1 st2,
    apartFrom l (files st1) = apartFrom l (files st2) ->
    apartFrom l (files (run us st1)) = apartFrom l (files (run us st2)).
Proof.
  induction us as [|u us IH]; intros st1 st2 H; [exact H|].
  simpl; apply IH; now apply apartFrom_applyUpdate.
Qed.

Lemma apartFrom_settle i o (st : AppState) :
  hasId l i = true ->
  apartFrom l (files (applyUpdate (settle i o) st)) = apartFrom l (files st).
Proof. intro Hi; destruct o; simpl; now apply apartFrom_update_inside. Qed.

End ApartFrom.

Lemma hasId_self (l : list HomeworkFile) (f : HomeworkFile) :
  In f l -> hasId l (id f) = true.
Proof.
  intro H; unfold hasId; apply existsb_exists; exists f; split; [exact H|].
  apply String.eqb_refl.
Qed.

Lemma same_id_same_item (fs : list HomeworkFile) :
  NoDup (map id fs) ->
  forall x y, In x fs -> In y fs -> id x = id y -> x = y.
Proof.
  induction fs as [|a fs IH]; intros Hnd x y Hx Hy E; [destruct Hx|].
  inversion Hnd as [|? ? Hnotin Hrest]; subst.
  destruct Hx as [->|Hx], Hy as [->|Hy]; [reflexivity| | |now apply IH].
  - exfalso; apply Hnotin; rewrite E; now apply in_map.
  - exfalso; apply Hnotin; rewrite <- E; now apply in_map.
Qed.





(** An item appended while the batch runs is not graded by it, and the
    items that were Completed or Processing stay as they were. *)
Example batch_skips_items_added_meanwhile :
  map (fun f => (id f, status f))
      (files (run (clickStartBatch alwaysGraded lateUpload (stateOf mixedItems))
                  (stateOf mixedItems)))
  = [("a1", COMPLETED); ("b2", COMPLETED); ("c3", PROCESSING);
     ("d4", COMPLETED); ("z9", PENDING)] /\
  apartFrom (filesToGrade mixedItems)
            (files (run (clickStartBatch alwaysGraded lateUpload
                                         (stateOf mixedItems))
                        (stateOf mixedItems)))
  = [withStatus (item "b2" "two.txt" PENDING) COMPLETED (Some graded90) None;
     item "c3" "three.txt" PROCESSING; item "z9" "late.txt" PENDING].
Proof. split; reflexivity. Qed.

(** ** parseScore and the dashboard's numbers *)

Lemma string_app_assoc (a b c : string) :
  ((a ++ b) ++ c)%string = (a ++ (b ++ c))%string.
Proof. induction a as [|x a IH]; simpl; [reflexivity|now rewrite IH]. Qed.

Lemma digitRun_spec (s : string) :
  forall ds tl,
    digitRun s = (ds, tl) ->
    s = (ds ++ tl)%string /\ allDigits ds = true /\ digitAhead tl = false /\
    (digitAhead s = true -> ds <> EmptyString) /\
    (digitAhead s = false -> ds = EmptyString).
Proof.
  induction s as [|c rest IH]; intros ds tl H; simpl in H.
  - injection H as <- <-; repeat split; intro; discriminate.
  - destruct (isDigit c) eqn:Ec.
    + destruct (digitRun rest) as [ds' tl'] eqn:Er.
      injection H as <- <-.
      destruct (IH _ _ eq_refl) as [Hs [Hd [Ht _]]].
      simpl; rewrite Ec, Hd, <- Hs; repeat split; try exact Ht.
      * discriminate.
      * intro; discriminate.
    + injection H as <- <-; simpl; rewrite Ec; repeat split; intro; discriminate.
Qed.

Lemma numberAtHead_none (s : string) :
  digitAhead s = false -> numberAtHead s = None.
Proof.
  intro H; unfold numberAtHead.
  destruct (digitRun s) as [ds tl] eqn:E.
  destruct (digitRun_spec _ E) as [_ [_ [_ [_ Hds]]]].
  now rewrite (Hds H).
Qed.

Lemma allDigits_with_dot (ds fs : string) :
  allDigits (ds ++ String "."%char fs)%string = false.
Proof.
  induction ds as [|c ds IH]; simpl; [reflexivity|].
  rewrite IH; apply andb_false_r.
Qed.

Lemma numberAtHead_some (s : string) :
  digitAhead s = true ->
  exists token post,
    numberAtHead s = Some token /\ s = (token ++ post)%string /\
    decimalText token /\ digitAhead post = false /\
    (allDigits token = true -> fractionAhead post = false).
Proof.
  intro H; unfold numberAtHead.
  destruct (digitRun s) as [ds tl] eqn:E.
  destruct (digitRun_spec _ E) as [Hs [Hd [Ht [Hne _]]]].
  specialize (Hne H).
  destruct ds as [|d ds]; [contradiction|].
  assert (Hplain : fractionAhead tl = false ->
           exists token post,
             Some (String d ds) = Some token /\ s = (token ++ post)%string /\
             decimalText token /\ digitAhead post = false /\
             (allDigits token = true -> fractionAhead post = false)).
  { intro Hfr; exists (String d ds), tl.
    split; [reflexivity|split; [exact Hs|split; [|split; [exact Ht|]]]].
    - exists (String d ds); repeat split; [exact Hd|discriminate|now left].
    - intros _; exact Hfr. }
  destruct tl as [|c tl]; [now apply Hplain|].
  destruct (Ascii.eqb_spec c "."%char) as [->|Hc].
  - destruct (digitRun tl) as [fs post] eqn:Ef.
    destruct (digitRun_spec _ Ef) as [Htl [Hfd [Hpost [_ Hnone]]]].
    destruct fs as [|x fs].
    + apply Hplain; simpl.
      destruct tl as [|y tl']; [reflexivity|].
      destruct (isDigit y) eqn:Ey; [|reflexivity].
      simpl in Ef; rewrite Ey in Ef.
      destruct (digitRun tl'); discriminate Ef.
    + exists (String d ds ++ String "."%char (String x fs))%string, post.
      repeat split; try exact Hpost.
      * rewrite Hs, Htl, string_app_assoc; reflexivity.
      * exists (String d ds); repeat split; [exact Hd|discriminate|].
        right; exists (String x fs); repeat split; [exact Hfd|discriminate].
      * intro Hall; rewrite allDigits_with_dot in Hall; discriminate Hall.
  - apply Hplain; simpl.
    destruct tl as [|y tl']; [reflexivity|].
    apply Ascii.eqb_neq in Hc; now rewrite Hc.
Qed.

Lemma digitRun_app (ds rest : string) :
  allDigits ds = true -> digitAhead rest = false ->
  digitRun (ds ++ rest)%string = (ds, rest).
Proof.
  intros Hd Hrest; induction ds as [|c ds IH]; simpl.
  - destruct rest as [|c rest]; [reflexivity|].
    simpl in Hrest; simpl; now rewrite Hrest.
  - simpl in Hd; apply andb_prop in Hd; destruct Hd as [Hc Hds].
    now rewrite Hc, (IH Hds).
Qed.

Lemma numberAtHead_complete (token post : string) :
  decimalText token ->
  digitAhead post = false ->
  (allDigits token = true -> fractionAhead post = false) ->
  numberAtHead (token ++ post)%string = Some token.
Proof.
  intros [ds [Hd [Hne Hshape]]] Hpost Hfr; unfold numberAtHead.
  destruct ds as [|d ds]; [contradiction|].
  destruct Hshape as [->|[fs [Hfd [Hfne ->]]]].
  - rewrite (digitRun_app _ _ Hd Hpost).
    specialize (Hfr Hd).
    destruct post as [|c post]; [reflexivity|].
    destruct (Ascii.eqb c "."%char) eqn:Ec; [|reflexivity].
    destruct post as [|y post]; [reflexivity|].
    simpl in Hfr; rewrite Ec in Hfr; simpl in Hfr.
    simpl; now rewrite Hfr.
  - rewrite string_app_assoc.
    rewrite (digitRun_app (String d ds) (String "."%char fs ++ post));
      [|exact Hd|reflexivity].
    cbn [append]; rewrite ?Ascii.eqb_refl.
    change (Ascii.eqb "."%char "."%char) with true; cbv iota.
    rewrite (digitRun_app _ _ Hfd Hpost).
    destruct fs as [|x fs]; [contradiction|reflexivity].
Qed.

Lemma firstNumber_skips (pre rest : string) :
  hasDigit pre = false ->
  firstNumber (pre ++ rest)%string = firstNumber rest.
Proof.
  induction pre as [|c pre IH]; intro H; [reflexivity|].
  simpl in H; apply orb_false_iff in H; destruct H as [Hc Hpre].
  simpl append; simpl firstNumber.
  rewrite numberAtHead_none by exact Hc; now apply IH.
Qed.

Lemma firstNumber_hasDigit (s : string) :
  isSome (firstNumber s) = hasDigit s.
Proof.
  induction s as [|c rest IH]; [reflexivity|].
  simpl firstNumber; simpl hasDigit.
  destruct (isDigit c) eqn:Ec.
  - destruct (numberAtHead_some (String c rest)) as [token [post [-> _]]];
      [exact Ec|reflexivity].
  - rewrite numberAtHead_none by exact Ec; exact IH.
Qed.

(** X1. [parseScore] gives a number exactly when the score text holds a
    decimal digit; an absent or empty score, a letter grade or a word give
    [null], whatever [parseFloat] does. *)
Theorem parseScore_number_iff_digit
    (parseFloat : string -> JsNumber) (scoreStr : option string) :
  isSome (parseScore parseFloat scoreStr)
  = match scoreStr with
    | Some s => hasDigit s
    | None => false
    end.
Proof.
  destruct scoreStr as [s|]; [|reflexivity].
  destruct s as [|c rest]; [reflexivity|].
  rewrite <- firstNumber_hasDigit; unfold parseScore.
  now destruct (firstNumber (String c rest)).
Qed.

(** X2. The text [parseScore] hands to [parseFloat] is the first number
    written in the score, taken as far as it goes: [firstNumber] gives a
    text exactly when that text is a run of digits, possibly followed by a
    dot and another run, no digit stands before it in the score, none comes
    right after it, and a text without fraction is not followed by a dot
    and a digit.  So ["95/100"] is read as 95 and ["A+ (3.5 of 4)"] as 3.5,
    never as 3. *)
Theorem firstNumber_is_leftmost_decimal (s token : string) :
  firstNumber s = Some token <->
  decimalText token /\
  exists pre post,
    s = (pre ++ token ++ post)%string /\
    hasDigit pre = false /\ digitAhead post = false /\
    (allDigits token = true -> fractionAhead post = false).
Proof.
  split.
  - revert token; induction s as [|c rest IH]; intros token H;
      [discriminate H|].
    simpl firstNumber in H.
    destruct (isDigit c) eqn:Ec.
    + destruct (numberAtHead_some (String c rest))
        as [tok [post [E [Hs [Hd [Hp Hfr]]]]]]; [exact Ec|].
      rewrite E in H; injection H as <-.
      split; [exact Hd|exists EmptyString, post; now repeat split].
    + rewrite numberAtHead_none in H by exact Ec.
      destruct (IH _ H) as [Hd [pre [post [Hs [Hpre [Hp Hfr]]]]]].
      split; [exact Hd|].
      exists (String c pre), post; simpl; rewrite Ec, <- Hs; now repeat split.
  - intros [Hd [pre [post [-> [Hpre [Hpost Hfr]]]]]].
    rewrite firstNumber_skips by exact Hpre.
    pose proof (@numberAtHead_complete token post Hd Hpost Hfr) as E.
    destruct Hd as [ds [_ [Hne Hshape]]].
    destruct ds as [|d ds]; [contradiction|].
    destruct Hshape as [->|[fs [_ [_ ->]]]]; simpl in E |- *; now rewrite E.
Qed.

Lemma firstNumber_is_leftmost_decimal_witness :
  firstNumber "A+ (3.5 of 4)" = Some "3.5" /\
  firstNumber "A+ (3.5 of 4)" <> Some "3" /\
  firstNumber "95/100" = Some "95".
Proof.
  split; [|split].
  - apply (proj2 (firstNumber_is_leftmost_decimal "A+ (3.5 of 4)" "3.5")).
    split.
    + exists "3"; repeat split; [discriminate|].
      right; exists "5"; repeat split; discriminate.
    + exists "A+ (", " of 4)"; repeat split; discriminate.
  - intro H.
    destruct (proj1 (firstNumber_is_leftmost_decimal "A+ (3.5 of 4)" "3") H)
      as [_ [pre [post [Hs [Hpre [_ Hfr]]]]]].
    specialize (Hfr eq_refl).
    destruct pre as [|a0 [|a1 [|a2 [|a3 [|a4 pre]]]]];
      simpl in Hs; injection Hs as; subst;
      try discriminate; simpl in Hpre; try discriminate.
  - apply (proj2 (firstNumber_is_leftmost_decimal "95/100" "95")).
    split.
    + exists "95"; repeat split; [discriminate|now left].
    + exists "", "/100"; repeat split; discriminate.
Defined.

Lemma below_mono (s : JsNumber) (a b : Z) :
  (a <= b)%Z -> below s a = true -> below s b = true.
Proof.
  intro Hab; destruct s as [m e|]; simpl; [|trivial].
  destruct (0 <=? e)%Z.
  - rewrite !Z.ltb_lt; lia.
  - rewrite !Z.ltb_lt; intro H.
    assert (Hpow : (0 <= 2 ^ (- e))%Z) by (apply Z.pow_nonneg; lia).
    nia.
Qed.

(** Each number falls in exactly one of the five bars. *)
Lemma one_bar (s : JsNumber) :
  Nat.b2n (below s 60)
  + (Nat.b2n (atLeast s 60 && below s 70)
     + (Nat.b2n (atLeast s 70 && below s 80)
        + (Nat.b2n (atLeast s 80 && below s 90)
           + Nat.b2n (atLeast s 90)))) = 1.
Proof.
  unfold atLeast.
  pose proof (@below_mono s 60 70 ltac:(lia)) as H67.
  pose proof (@below_mono s 70 80 ltac:(lia)) as H78.
  pose proof (@below_mono s 80 90 ltac:(lia)) as H89.
  destruct (below s 60), (below s 70), (below s 80), (below s 90);
    simpl; try reflexivity;
    try (discriminate (H67 eq_refl)); try (discriminate (H78 eq_refl));
    try (discriminate (H89 eq_refl)).
Qed.

Lemma length_filter_b2n {A} (p : A -> bool) (l : list A) :
  List.length (filter p l) = fold_right (fun x n => Nat.b2n (p x) + n) 0 l.
Proof.
  induction l as [|x l IH]; simpl; [reflexivity|].
  destruct (p x); simpl; now rewrite IH.
Qed.

Lemma five_bars (ns : list JsNumber) :
  List.length (filter (fun s => below s 60) ns)
  + (List.length (filter (fun s => atLeast s 60 && below s 70) ns)
     + (List.length (filter (fun s => atLeast s 70 && below s 80) ns)
        + (List.length (filter (fun s => atLeast s 80 && below s 90) ns)
           + (List.length (filter (fun s => atLeast s 90) ns) + 0))))
  = List.length ns.
Proof.
  rewrite !length_filter_b2n.
  induction ns as [|s ns IH]; simpl; [reflexivity|].
  pose proof (one_bar s); lia.
Qed.

(** X3. The five bars of the dashboard split the numeric scores: every
    score [parseScore] reads as a number is counted in exactly one bar, so
    the bar counts add up to the number of numeric scores. *)
Theorem distribution_counts_every_numeric_score_once
    (parseFloat : string -> JsNumber) (files : list HomeworkFile) :
  barTotal (Dashboard.distributionData parseFloat files)
  = List.length (Dashboard.numericScores parseFloat files).
Proof. unfold barTotal, Dashboard.distributionData; simpl; apply five_bars. Qed.

Lemma length_nonNull_map {A B} (h : A -> option B) (l : list A) :
  List.length (nonNull (map h l)) = List.length (filter (fun x => isSome (h x)) l).
Proof.
  induction l as [|x l IH]; simpl; [reflexivity|].
  destruct (h x); simpl; now rewrite IH.
Qed.

Lemma length_filter_split {A} (p : A -> bool) (l : list A) :
  List.length (filter p l) + List.length (filter (fun x => negb (p x)) l)
  = List.length l.
Proof.
  induction l as [|x l IH]; simpl; [reflexivity|].
  destruct (p x); simpl; lia.
Qed.

(** X4. The count the dashboard shows beside the chart is the number of
    graded files whose score holds no digit; it is never negative, and with
    the numeric scores it accounts for every graded file. *)
Theorem qualitativeCount_counts_scores_without_digit
    (parseFloat : string -> JsNumber) (files : list HomeworkFile) :
  Dashboard.qualitativeCount parseFloat files
  = Z.of_nat
      (List.length
         (filter (fun f => negb match result f with
                                | Some r => hasDigit (score r)
                                | None => false
                                end)
                 (Dashboard.gradedFiles files))) /\
  (Z.of_nat (List.length (Dashboard.numericScores parseFloat files))
   + Dashboard.qualitativeCount parseFloat files
   = Z.of_nat (List.length (Dashboard.gradedFiles files)))%Z.
Proof.
  unfold Dashboard.qualitativeCount, Dashboard.numericScores.
  rewrite length_nonNull_map.
  pose proof (length_filter_split
                (fun f => isSome (parseScore parseFloat
                                             (option_map score (result f))))
                (Dashboard.gradedFiles files)) as Hsplit.
  assert (E : filter (fun f => negb (isSome (parseScore parseFloat
                                               (option_map score (result f)))))
                     (Dashboard.gradedFiles files)
              = filter (fun f => negb match result f with
                                      | Some r => hasDigit (score r)
                                      | None => false
                                      end)
                       (Dashboard.gradedFiles files)).
  { apply filter_ext; intro f.
    destruct (result f) as [r|]; simpl; [|reflexivity].
    destruct (score r) as [|c rest]; [reflexivity|].
    rewrite <- firstNumber_hasDigit.
    now destruct (firstNumber (String c rest)). }
  cbv beta in Hsplit; rewrite E in Hsplit; split; lia.
Qed.

(** ** The start button and the end of a batch *)

Lemma length_filter_zero {A} (p : A -> bool) (l : list A) :
  List.length (filter p l) = 0 <-> forall x, In x l -> p x = false.
Proof.
  induction l as [|x l IH]; simpl.
  - split; [intros _ x []|reflexivity].
  - destruct (p x) eqn:E; simpl.
    + split; [discriminate|].
      intro H; rewrite (H x (or_introl eq_refl)) in E; discriminate E.
    + rewrite IH; split.
      * intros H y [<-|Hy]; [exact E|now apply H].
      * intros H y Hy; apply H; now right.
Qed.

Lemma filter_all {A} (p : A -> bool) (l : list A) :
  (forall x, In x l -> p x = true) -> filter p l = l.
Proof.
  induction l as [|x l IH]; intro H; simpl; [reflexivity|].
  rewrite (H x (or_introl eq_refl)); f_equal.
  apply IH; intros y Hy; apply H; now right.
Qed.

Lemma FileStatus_eqb_eq (a b : FileStatus) :
  FileStatus_eqb a b = true <-> a = b.
Proof. destruct a, b; simpl; split; intro H; try reflexivity; discriminate H. Qed.

(** X5. The start button is enabled exactly when no batch is running and
    some item is Pending.  A batch started from it is never empty; a store
    whose only work left is failed items keeps the button disabled, although
    [startBatchGrading] would grade them. *)
Theorem start_enabled_iff_idle_and_pending
    (files : list HomeworkFile) (busy : bool) :
  (Dashboard.startDisabled files busy = false <->
   busy = false /\ exists f, In f files /\ status f = PENDING) /\
  (Dashboard.startDisabled files busy = false -> filesToGrade files <> []) /\
  ((forall f, In f files -> status f = ERROR) ->
   Dashboard.startDisabled files busy = true /\ filesToGrade files = files).
Proof.
  unfold Dashboard.startDisabled, Dashboard.pending.
  assert (Hiff : busy || Nat.eqb
                   (List.length
                      (filter (fun f => FileStatus_eqb (status f) PENDING) files))
                   0 = false <->
                 busy = false /\ exists f, In f files /\ status f = PENDING).
  { rewrite orb_false_iff, Nat.eqb_neq, length_filter_zero; split.
    - intros [Hb Hex]; split; [exact Hb|].
      destruct (existsb (fun f => FileStatus_eqb (status f) PENDING) files) eqn:E.
      + apply existsb_exists in E; destruct E as [f [Hin Hf]].
        exists f; split; [exact Hin|now apply FileStatus_eqb_eq].
      + exfalso; apply Hex; intros f Hin.
        destruct (FileStatus_eqb (status f) PENDING) eqn:Ef; [|reflexivity].
        assert (Ht : existsb (fun f => FileStatus_eqb (status f) PENDING) files
                     = true) by (apply existsb_exists; now exists f).
        rewrite Ht in E; discriminate E.
    - intros [Hb [f [Hin Hf]]]; split; [exact Hb|].
      intro H; specialize (H f Hin); rewrite Hf in H; discriminate H. }
  split; [exact Hiff|split].
  - intro H; apply Hiff in H; destruct H as [_ [f [Hin Hf]]].
    intro E.
    assert (Hg : In f (filesToGrade files))
      by (apply filter_In; split; [exact Hin|unfold toGrade; now rewrite Hf]).
    rewrite E in Hg; destruct Hg.
  - intro Herr; split.
    + apply not_false_iff_true; intro E.
      apply Hiff in E; destruct E as [_ [f [Hin Hf]]].
      rewrite (Herr f Hin) in Hf; discriminate Hf.
    + apply filter_all; intros f Hin; unfold toGrade; now rewrite (Herr f Hin).
Qed.

Lemma start_enabled_iff_idle_and_pending_witness :
  Dashboard.startDisabled mixedItems false = false /\
  filesToGrade mixedItems <> [].
Proof.
  split; [reflexivity|].
  apply (proj1 (proj2 (start_enabled_iff_idle_and_pending mixedItems false)));
    reflexivity.
Defined.

Lemma gradeEach_settles cr cs (g : Invoker) (todo : list HomeworkFile) :
  forall k st n f,
    nth_error (files st) n = Some f ->
    exists f',
      nth_error (files (run (gradeEach cr cs g (fun _ => []) k todo) st)) n
      = Some f' /\
      id f' = id f /\
      if hasId todo (id f) then terminal f' = true else f' = f.
Proof.
  induction todo as [|file rest IH]; intros k st n f Hn.
  - exists f; simpl; auto.
  - change (gradeEach cr cs g (fun _ => []) k (file :: rest))
      with ([UpdateFileStatus (id file) PROCESSING None None;
             settle (id file) (g k file cr cs)]
            ++ gradeEach cr cs g (fun _ => []) (S k) rest).
    rewrite run_app.
    set (st2 := run _ st).
    assert (Hn2 : nth_error (files st2) n
                  = Some (if String.eqb (id f) (id file)
                          then resolved (g k file cr cs) f else f)).
    { unfold st2; rewrite files_turn, nth_error_map, Hn; reflexivity. }
    destruct (IH (S k) st2 n _ Hn2) as [f' [Hf' [Hid Hend]]].
    exists f'; split; [exact Hf'|].
    unfold hasId; simpl existsb; fold (hasId rest (id f)).
    rewrite (String.eqb_sym (id file) (id f)).
    destruct (String.eqb (id f) (id file)) eqn:E; simpl.
    + rewrite id_resolved in Hid, Hend; split; [exact Hid|].
      destruct (hasId rest (id f)); [exact Hend|].
      rewrite Hend; unfold terminal; now destruct (g k file cr cs).
    + split; [exact Hid|exact Hend].
Qed.

(** X6. When a batch left undisturbed ends, every item whose id was among
    the files to grade is Completed or Error, every other item is as it
    was, and no item is Pending: the dashboard counts zero pending files
    and disables the start button, so that failed items can then be retried
    only one by one. *)
Theorem undisturbed_batch_leaves_nothing_pending (st : AppState) (g : Invoker) :
  let final := run (clickStartBatch g (fun _ => []) st) st in
  (forall n f,
     nth_error (files st) n = Some f ->
     exists f',
       nth_error (files final) n = Some f' /\ id f' = id f /\
       if hasId (filesToGrade (files st)) (id f)
       then terminal f' = true else f' = f) /\
  Dashboard.pending (files final) = 0 /\
  Dashboard.startDisabled (files final) (isGrading final) = true.
Proof.
  intro final.
  assert (Hfiles : files final
                   = files (run (gradeEach (rubric st) (settings st) g
                                           (fun _ => []) 0
                                           (filesToGrade (files st)))
                                (applyUpdate (SetIsGrading true) st))).
  { unfold final, clickStartBatch, startBatchGrading.
    simpl run; rewrite run_app; reflexivity. }
  assert (Heach : forall n f,
             nth_error (files st) n = Some f ->
             exists f',
               nth_error (files final) n = Some f' /\ id f' = id f /\
               if hasId (filesToGrade (files st)) (id f)
               then terminal f' = true else f' = f).
  { intros n f Hn; rewrite Hfiles; now apply gradeEach_settles. }
  assert (Hpending : Dashboard.pending (files final) = 0).
  { apply length_filter_zero; intros f' Hin.
    apply In_nth_error in Hin; destruct Hin as [n Hn'].
    assert (Hlt : n < List.length (files st)).
    { change (files st) with (files (applyUpdate (SetIsGrading true) st)).
      rewrite <- (length_gradeEach_undisturbed (rubric st) (settings st) g
                    (filesToGrade (files st)) 0
                    (applyUpdate (SetIsGrading true) st)).
      rewrite <- Hfiles; apply nth_error_Some; now rewrite Hn'. }
    destruct (nth_error (files st) n) as [f|] eqn:Hn;
      [|apply nth_error_None in Hn; simpl in Hn; lia].
    destruct (Heach n f Hn) as [f2 [Hn2 [_ Hend]]].
    rewrite Hn' in Hn2; injection Hn2 as <-.
    destruct (hasId (filesToGrade (files st)) (id f)) eqn:Hid.
    - unfold terminal in Hend; now destruct (status f').
    - subst f'.
      destruct (status f) eqn:Es; try reflexivity.
      assert (Hg : In f (filesToGrade (files st))).
      { apply filter_In; split; [eapply nth_error_In; exact Hn|].
        unfold toGrade; now rewrite Es. }
      rewrite (hasId_self _ _ Hg) in Hid; discriminate Hid. }
  split; [exact Heach|split; [exact Hpending|]].
  unfold Dashboard.startDisabled; rewrite Hpending; apply orb_true_r.
Qed.

Lemma undisturbed_batch_leaves_nothing_pending_witness :
  exists f',
    nth_error (files (run (clickStartBatch (failingAt 1) (fun _ => [])
                                           (stateOf mixedItems))
                          (stateOf mixedItems))) 3 = Some f' /\
    id f' = "d4" /\ terminal f' = true.
Proof.
  apply (proj1 (undisturbed_batch_leaves_nothing_pending (stateOf mixedItems)
                  (failingAt 1))
               3 (withStatus (item "d4" "four.txt" PENDING) ERROR None
                             (Some "rate limited"))).
  reflexivity.
Defined.

(** ** What a status brings with it *)

Lemma carries_applyUpdate (u : Update) (st : AppState) :
  forallb carriesItem (files st) = true ->
  carrying u = true ->
  forallb carriesItem (files (applyUpdate u st)) = true.
Proof.
  intros Hst Hu; rewrite forallb_forall in Hst.
  destruct u as [items|i|i s r e|patch|r|b]; simpl in *;
    try (apply forallb_forall; exact Hst).
  - rewrite forallb_app, Hu, andb_true_r; apply forallb_forall; exact Hst.
  - apply forallb_forall; intros f Hin.
    apply filter_In in Hin; now apply Hst.
  - apply forallb_forall; intros f' Hin.
    apply in_map_iff in Hin; destruct Hin as [f [<- Hin]].
    destruct (String.eqb (id f) i); [exact Hu|now apply Hst].
Qed.

Lemma carries_trace (us : list Update) :
  forall st,
    forallb carriesItem (files st) = true ->
    forallb carrying us = true ->
    Forall (fun s => forallb carriesItem (files s) = true) (trace us st).
Proof.
  induction us as [|u us IH]; intros st Hst Hus; simpl; [constructor|].
  simpl in Hus; apply andb_prop in Hus; destruct Hus as [Hu Hus].
  pose proof (carries_applyUpdate u st Hst Hu) as H1.
  constructor; [exact H1|now apply IH].
Qed.

Lemma carrying_settle i o : carrying (settle i o) = true.
Proof. now destruct o. Qed.

Lemma carrying_gradeEach cr cs g (awaiting : nat -> list Update) :
  (forall k, forallb carrying (awaiting k) = true) ->
  forall todo k, forallb carrying (gradeEach cr cs g awaiting k todo) = true.
Proof.
  intros Haw todo; induction todo as [|file rest IH]; intro k; simpl;
    [reflexivity|].
  rewrite forallb_app, Haw; simpl.
  now rewrite carrying_settle, IH.
Qed.

Lemma carrying_addFiles random rd ex newFiles :
  forallb carrying (queued (addFiles random rd ex newFiles)) = true.
Proof.
  unfold addFiles.
  destruct (processFiles _ _ _ 0 (filter notHidden newFiles)) as [items|e] eqn:E;
    simpl; [|reflexivity].
  rewrite andb_true_r; apply forallb_forall; intros x Hx.
  destruct (processFiles_returned _ _ _ _ _ E) as [H2 _].
  revert x Hx; apply Forall_forall.
  eapply Forall2_right; [|exact H2].
  intros f x [[_ [_ [_ [Hs _]]]] _].
  unfold carriesItem; now rewrite Hs.
Qed.

(** X7. After every update the component's handlers queue ([addFiles],
    [removeFile], [startBatchGrading], [reGradeFile]), a Completed item has
    its result and an Error item its message, provided this held before and
    holds of the updates queued in between. *)
Theorem status_brings_its_field
    (st : AppState) (closure_files : list HomeworkFile) (closure_rubric : string)
    (closure_settings : AppSettings) (g : Invoker)
    (awaiting : nat -> list Update) (awaitingOne : list Update) (i : string)
    (random : nat -> string)
    (readFileAsBase64 extractTextFromFile : File -> Outcome (option string))
    (newFiles : list File) :
  forallb carriesItem (files st) = true ->
  (forall k, forallb carrying (awaiting k) = true) ->
  forallb carrying awaitingOne = true ->
  let holdsAfterEach us :=
    Forall (fun s => forallb carriesItem (files s) = true) (trace us st) in
  holdsAfterEach (startBatchGrading closure_files closure_rubric closure_settings
                                    g awaiting) /\
  holdsAfterEach (reGradeFile closure_files closure_rubric closure_settings
                              g awaitingOne i) /\
  holdsAfterEach (queued (addFiles random readFileAsBase64 extractTextFromFile
                                   newFiles)) /\
  holdsAfterEach [RemoveFile i].
Proof.
  intros Hst Haw Haw1 holdsAfterEach; unfold holdsAfterEach.
  split; [|split; [|split]]; apply carries_trace; try exact Hst.
  - unfold startBatchGrading; simpl.
    rewrite forallb_app, carrying_gradeEach by exact Haw; reflexivity.
  - unfold reGradeFile.
    destruct (find _ closure_files) as [file|]; [|reflexivity]; simpl.
    rewrite forallb_app, Haw1; simpl; now rewrite carrying_settle.
  - apply carrying_addFiles.
  - reflexivity.
Qed.

Lemma status_brings_its_field_witness :
  Forall (fun s => forallb carriesItem (files s) = true)
         (trace (startBatchGrading mixedItems "rubric" (DEFAULT_SETTINGS None)
                                   (failingAt 1) lateUpload)
                (stateOf mixedItems)).
Proof.
  apply (status_brings_its_field (stateOf mixedItems) mixedItems "rubric"
           (DEFAULT_SETTINGS None) (failingAt 1) lateUpload [] "a1"
           drawsHalf resolvesAbsent resolvesPayload []);
    [reflexivity| |reflexivity].
  intro k; unfold lateUpload; now destruct (Nat.eqb k 0).
Defined.

(** X8. On a store where every Completed item has its result, the two
    views agree: the dashboard charts the files the results view exports,
    its Completed count is their number, and the details button, shown on
    Completed rows only, always opens a dialog with a result. *)
Theorem views_agree_on_graded_files (files : list HomeworkFile) :
  forallb carriesItem files = true ->
  Dashboard.gradedFiles files = ResultsView.gradedFiles files /\
  Dashboard.completed files = List.length (Dashboard.gradedFiles files) /\
  (forall f, In f files -> ResultsView.detailsButtonShown f = true ->
             exists r, ResultDetailModal f = Some r).
Proof.
  intro H; rewrite forallb_forall in H.
  assert (Hres : forall f, In f files ->
                   FileStatus_eqb (status f) COMPLETED = true ->
                   isSome (result f) = true).
  { intros f Hin Hs; apply FileStatus_eqb_eq in Hs.
    specialize (H f Hin); unfold carriesItem in H; now rewrite Hs in H. }
  assert (E : Dashboard.gradedFiles files = ResultsView.gradedFiles files).
  { apply filter_ext_in; intros f Hin.
    destruct (FileStatus_eqb (status f) COMPLETED) eqn:Es; [|reflexivity].
    now rewrite (Hres f Hin Es). }
  split; [exact E|split].
  - now rewrite E.
  - intros f Hin Hshown; unfold ResultDetailModal.
    specialize (Hres f Hin Hshown).
    destruct (result f) as [r|]; [now exists r|discriminate Hres].
Qed.

Lemma views_agree_on_graded_files_witness :
  Dashboard.gradedFiles gradedItems = ResultsView.gradedFiles gradedItems /\
  Dashboard.completed gradedItems = 2.
Proof.
  destruct (views_agree_on_graded_files gradedItems eq_refl) as [E [Hc _]].
  split; [exact E|exact Hc].
Defined.

(** ** The columns of the results table *)

Lemma In_add (keys : list string) (k x : string) :
  In x (ResultsView.add keys k) <-> In x keys \/ x = k.
Proof.
  unfold ResultsView.add.
  destruct (existsb (String.eqb k) keys) eqn:E.
  - split; [now left|intros [H| ->]; [exact H|]].
    apply existsb_exists in E; destruct E as [y [Hy Hk]].
    apply String.eqb_eq in Hk; now subst y.
  - rewrite in_app_iff; simpl; intuition.
Qed.

Lemma NoDup_add (keys : list string) (k : string) :
  NoDup keys -> NoDup (ResultsView.add keys k).
Proof.
  intro H; unfold ResultsView.add.
  destruct (existsb (String.eqb k) keys) eqn:E; [exact H|].
  assert (Hk : ~ In k keys).
  { intro Hin.
    assert (Ht : existsb (String.eqb k) keys = true)
      by (apply existsb_exists; exists k; split;
          [exact Hin|apply String.eqb_refl]).
    rewrite Ht in E; discriminate E. }
  clear E; induction H as [|y keys Hy Hnd IH]; simpl.
  - constructor; [intros []|constructor].
  - constructor.
    + rewrite in_app_iff; simpl; intros [Hin|[<-|[]]]; [contradiction|].
      apply Hk; now left.
    + apply IH; intro Hin; apply Hk; now right.
Qed.

Lemma addNames_spec (ds : list GradingDetailItem) :
  forall keys,
    (NoDup keys ->
     NoDup (fold_left (fun keys d => ResultsView.add keys (detail_name d)) ds keys)) /\
    (forall x,
       In x (fold_left (fun keys d => ResultsView.add keys (detail_name d)) ds keys)
       <-> In x keys \/ exists d, In d ds /\ detail_name d = x).
Proof.
  induction ds as [|d ds IH]; intro keys; simpl.
  - split; [trivial|]; intro x; split; [now left|].
    intros [H|[d [[] _]]]; exact H.
  - destruct (IH (ResultsView.add keys (detail_name d))) as [Hnd Hin].
    split; [intro H; apply Hnd; now apply NoDup_add|].
    intro x; rewrite Hin, In_add; split.
    + intros [[H| ->]|[d' [Hd' Hx]]]; [now left| |].
      * right; exists d; split; [now left|reflexivity].
      * right; exists d'; split; [now right|exact Hx].
    + intros [H|[d' [[<-|Hd'] Hx]]]; [now left; left| |].
      * left; right; now symmetry.
      * right; now exists d'.
Qed.

Lemma uniqueDetailKeys_from (fs : list HomeworkFile) :
  forall keys,
    let step keys f :=
      match result f with
      | Some r =>
          match details r with
          | Some ds =>
              fold_left (fun keys d => ResultsView.add keys (detail_name d)) ds keys
          | None => keys
          end
      | None => keys
      end in
    (NoDup keys -> NoDup (fold_left step fs keys)) /\
    (forall x, In x (fold_left step fs keys) <-> In x keys \/ detailNamed fs x).
Proof.
  induction fs as [|f fs IH]; intros keys step; simpl.
  - split; [trivial|]; intro x; split; [now left|].
    intros [H|[f [r [ds [d [[] _]]]]]]; exact H.
  - destruct (IH (step keys f)) as [Hnd Hin]; fold step in Hnd, Hin.
    assert (Hstep : (NoDup keys -> NoDup (step keys f)) /\
                    forall x, In x (step keys f) <->
                              In x keys \/ detailNamed [f] x).
    { unfold step, detailNamed.
      destruct (result f) as [r|] eqn:Er.
      2:{ split; [trivial|]; intro x; split; [now left|].
          intros [H|[f' [r [ds [d [[<-|[]] [Hr _]]]]]]]; [exact H|].
          rewrite Er in Hr; discriminate Hr. }
      destruct (details r) as [ds|] eqn:Ed.
      2:{ split; [trivial|]; intro x; split; [now left|].
          intros [H|[f' [r' [ds [d [[<-|[]] [Hr [Hd _]]]]]]]]; [exact H|].
          rewrite Er in Hr; injection Hr as <-.
          rewrite Ed in Hd; discriminate Hd. }
      destruct (addNames_spec ds keys) as [Hnd' Hin'].
      split; [exact Hnd'|].
      intro x; rewrite Hin'; split.
      - intros [H|[d [Hd Hx]]]; [now left|right].
        exists f, r, ds, d; repeat split; try assumption; now left.
      - intros [H|[f' [r' [ds' [d [[<-|[]] [Hr [Hd [Hin2 Hx]]]]]]]]]; [now left|].
        rewrite Er in Hr; injection Hr as <-.
        rewrite Ed in Hd; injection Hd as <-.
        right; now exists d. }
    destruct Hstep as [Hnd1 Hin1].
    split; [intro H; apply Hnd; now apply Hnd1|].
    intro x; rewrite Hin, Hin1; unfold detailNamed; split.
    + intros [[H|[f' [r [ds [d [[<-|[]] H]]]]]]|[f' [r [ds [d [Hf' H]]]]]].
      * now left.
      * right; exists f, r, ds, d; split; [now left|exact H].
      * right; exists f', r, ds, d; split; [now right|exact H].
    + intros [H|[f' [r [ds [d [[<-|Hf'] H]]]]]].
      * now left; left.
      * left; right; exists f, r, ds, d; split; [now left|exact H].
      * right; exists f', r, ds, d; split; [exact Hf'|exact H].
Qed.

(** X9. The detail columns of the results table are the names of the
    details the items carry, each once.  A cell found for a file under a
    column holds a detail of that name, and every detail of a file in the
    store finds a cell under the column of its name (the first detail of
    that name the file has). *)
Theorem detail_columns_cover_every_detail (files : list HomeworkFile) :
  NoDup (ResultsView.uniqueDetailKeys files) /\
  (forall key, In key (ResultsView.uniqueDetailKeys files)
               <-> detailNamed files key) /\
  (forall file key d,
     ResultsView.detail file key = Some d -> detail_name d = key) /\
  (forall file r ds d,
     In file files -> result file = Some r -> details r = Some ds -> In d ds ->
     In (detail_name d) (ResultsView.uniqueDetailKeys files) /\
     exists d', ResultsView.detail file (detail_name d) = Some d').
Proof.
  destruct (uniqueDetailKeys_from files []) as [Hnd Hin].
  split; [apply Hnd; constructor|split; [|split]].
  - intro key; unfold ResultsView.uniqueDetailKeys; rewrite Hin.
    split; [intros [[]|H]; exact H|now right].
  - intros file key d; unfold ResultsView.detail.
    destruct (result file) as [r|]; [|discriminate].
    destruct (details r) as [ds|]; [|discriminate].
    intro H; apply find_some in H; destruct H as [_ H].
    now apply String.eqb_eq.
  - intros file r ds d Hfile Hr Hd Hin2; split.
    + unfold ResultsView.uniqueDetailKeys; apply Hin; right.
      now exists file, r, ds, d.
    + unfold ResultsView.detail; rewrite Hr, Hd.
      destruct (find (fun d0 => String.eqb (detail_name d0) (detail_name d)) ds)
        as [d'|] eqn:E; [now exists d'|].
      pose proof (find_none _ _ E d Hin2) as Hn; simpl in Hn.
      rewrite String.eqb_refl in Hn; discriminate Hn.
Qed.

Lemma detail_columns_cover_every_detail_witness :
  ResultsView.uniqueDetailKeys gradedItems = ["Logic"; "Style"] /\
  ResultsView.detail (nth 1 gradedItems (item "" "" PENDING)) "Style"
  = Some (criterion "Style" "7") /\
  detail_name (criterion "Style" "7") = "Style".
Proof.
  split; [reflexivity|split; [reflexivity|]].
  apply (proj1 (proj2 (proj2 (detail_columns_cover_every_detail gradedItems)))
               (nth 1 gradedItems (item "" "" PENDING)) "Style").
  reflexivity.
Defined.

(** ** The settings view *)

Lemma offeredFor_filteredModels (s : AppSettings) (v : string) :
  existsb (fun m => String.eqb (value m) v) (filteredModels s)
  = offeredFor (modelProvider s) v.
Proof.
  unfold filteredModels, offeredFor.
  induction AVAILABLE_MODELS as [|m ms IH]; simpl; [reflexivity|].
  destruct (ModelProvider_eqb (provider m) (modelProvider s)); simpl;
    now rewrite IH.
Qed.

Lemma settingsStep_offered (ev : SettingsEvent) (s : AppSettings) :
  offeredFor (modelProvider s) (modelName s) = true ->
  selectable [ev] s = true ->
  offeredFor (modelProvider (settingsStep ev s)) (modelName (settingsStep ev s))
  = true.
Proof.
  intros Hs Hev; destruct ev as [p|v|text|text]; unfold settingsStep; simpl.
  - unfold handleProviderChange.
    destruct (filter _ AVAILABLE_MODELS) as [|m rest] eqn:E.
    + destruct p; discriminate E.
    + simpl; now apply offeredFor_first with rest.
  - simpl in Hev; rewrite andb_true_r, offeredFor_filteredModels in Hev.
    exact Hev.
  - exact Hs.
  - exact Hs.
Qed.

(** X10. Whatever the user does in the settings view (switch provider,
    pick one of the models the select shows, type a key or a base URL), the
    model name stays one of the models offered for the provider in force,
    so the select always shows the current model among its options. *)
Theorem settings_view_keeps_model_offered
    (evs : list SettingsEvent) (s : AppSettings) :
  offeredFor (modelProvider s) (modelName s) = true ->
  selectable evs s = true ->
  offeredFor (modelProvider (settingsRun evs s)) (modelName (settingsRun evs s))
  = true /\
  existsb (fun m => String.eqb (value m) (modelName (settingsRun evs s)))
          (filteredModels (settingsRun evs s)) = true.
Proof.
  revert s; induction evs as [|ev evs IH]; intros s Hs Hevs.
  - simpl; split; [exact Hs|now rewrite offeredFor_filteredModels].
  - simpl settingsRun; apply IH.
    + apply settingsStep_offered; [exact Hs|].
      simpl in Hevs |- *; apply andb_prop in Hevs; destruct Hevs as [H _].
      now rewrite H.
    + simpl in Hevs; apply andb_prop in Hevs; tauto.
Qed.

Lemma settings_view_keeps_model_offered_witness :
  let s := settingsRun [ProviderRadio CUSTOM; BaseUrlInput "http://localhost/v1";
                        ModelSelect "qwen-vl-max"; ApiKeyInput "sk-1"]
                       (DEFAULT_SETTINGS None) in
  offeredFor (modelProvider s) (modelName s) = true /\
  existsb (fun m => String.eqb (value m) (modelName s)) (filteredModels s) = true.
Proof.
  apply (settings_view_keeps_model_offered
           [ProviderRadio CUSTOM; BaseUrlInput "http://localhost/v1";
            ModelSelect "qwen-vl-max"; ApiKeyInput "sk-1"]
           (DEFAULT_SETTINGS None));
    reflexivity.
Defined.

(** X11. Settings patches compose as object spreads do: applying one
    patch after another is applying their merge, in which the later patch
    wins key by key; applying a patch twice is applying it once, and the
    empty patch changes nothing. *)
Theorem updateSettings_composes (p1 p2 : PartialAppSettings) (s : AppSettings) :
  updateSettings p2 (updateSettings p1 s) = updateSettings (mergePatch p1 p2) s /\
  updateSettings p1 (updateSettings p1 s) = updateSettings p1 s /\
  updateSettings emptyPatch s = s.
Proof.
  destruct s as [k mp url mn].
  destruct p1 as [[k1|] [mp1|] [url1|] [mn1|]],
           p2 as [[k2|] [mp2|] [url2|] [mn2|]];
    repeat split.
Qed.

(** ** What grading leaves alone *)

Lemma creationData_applyUpdate (u : Update) (st : AppState) :
  keepsItems u = true ->
  map creationData (files (applyUpdate u st)) = map creationData (files st).
Proof.
  destruct u as [items|i|i s r e|patch|r|b]; simpl; intro H;
    try reflexivity; try discriminate H.
  unfold updateFileStatus; rewrite map_map; apply map_ext; intro f.
  now destruct (String.eqb (id f) i).
Qed.

Lemma creationData_run (us : list Update) :
  forall st, forallb keepsItems us = true ->
             map creationData (files (run us st)) = map creationData (files st).
Proof.
  induction us as [|u us IH]; intros st H; [reflexivity|].
  simpl in H; apply andb_prop in H; destruct H as [Hu Hus].
  simpl; rewrite IH by exact Hus; now apply creationData_applyUpdate.
Qed.

Lemma keepsItems_settle i o : keepsItems (settle i o) = true.
Proof. now destruct o. Qed.

Lemma keepsItems_gradeEach cr cs g (awaiting : nat -> list Update) :
  (forall k, forallb keepsItems (awaiting k) = true) ->
  forall todo k, forallb keepsItems (gradeEach cr cs g awaiting k todo) = true.
Proof.
  intros Haw todo; induction todo as [|file rest IH]; intro k; simpl;
    [reflexivity|].
  rewrite forallb_app, Haw; simpl.
  now rewrite keepsItems_settle, IH.
Qed.

(** X12. Grading never touches what an item was created with: after a
    batch or a regrade, with any status updates of other handlers in
    between, the store holds the same items in the same order with the
    same id, name, type, size and contents. *)
Theorem grading_keeps_creation_data
    (st : AppState) (closure_files : list HomeworkFile) (closure_rubric : string)
    (closure_settings : AppSettings) (g : Invoker)
    (awaiting : nat -> list Update) (awaitingOne : list Update) (i : string) :
  (forall k, forallb keepsItems (awaiting k) = true) ->
  forallb keepsItems awaitingOne = true ->
  map creationData
      (files (run (startBatchGrading closure_files closure_rubric
                                     closure_settings g awaiting) st))
  = map creationData (files st) /\
  map creationData
      (files (run (reGradeFile closure_files closure_rubric closure_settings
                               g awaitingOne i) st))
  = map creationData (files st).
Proof.
  intros Haw Haw1; split; apply creationData_run.
  - unfold startBatchGrading; simpl.
    rewrite forallb_app, keepsItems_gradeEach by exact Haw; reflexivity.
  - unfold reGradeFile.
    destruct (find _ closure_files) as [file|]; [|reflexivity]; simpl.
    rewrite forallb_app, Haw1; simpl; now rewrite keepsItems_settle.
Qed.

Lemma grading_keeps_creation_data_witness :
  map creationData
      (files (run (startBatchGrading mixedItems "rubric" (DEFAULT_SETTINGS None)
                                     (failingAt 1)
                                     (fun _ => [UpdateFileStatus "b2" PROCESSING
                                                                 None None]))
                  (stateOf mixedItems)))
  = map creationData mixedItems.
Proof.
  apply (proj1 (grading_keeps_creation_data (stateOf mixedItems) mixedItems
                  "rubric" (DEFAULT_SETTINGS None) (failingAt 1)
                  (fun _ => [UpdateFileStatus "b2" PROCESSING None None])
                  [] "a1" (fun _ => eq_refl) eq_refl)).
Defined.

Lemma updateFileStatus_overwrites i s r e s' r' e' (fs : list HomeworkFile) :
  updateFileStatus i s' r' e' (updateFileStatus i s r e fs)
  = updateFileStatus i s' r' e' fs.
Proof.
  unfold updateFileStatus; rewrite map_map; apply map_ext; intro f.
  destruct (String.eqb (id f) i) eqn:E; simpl; now rewrite E.
Qed.

Lemma last_status_update_wins (i : string) (s : FileStatus)
    (r : option GradingResult) (e : option string) (us : list Update) :
  forallb (statusUpdateOf i) us = true ->
  forall st,
    files (run (us ++ [UpdateFileStatus i s r e]) st)
    = updateFileStatus i s r e (files st).
Proof.
  induction us as [|u us IH]; intros H st; [reflexivity|].
  simpl in H; apply andb_prop in H; destruct H as [Hu Hus].
  destruct u as [items|j|j s0 r0 e0|patch|r0|b]; try discriminate Hu.
  apply String.eqb_eq in Hu; subst j.
  simpl; rewrite IH by exact Hus; simpl.
  apply updateFileStatus_overwrites.
Qed.

(** X13. The status updates other handlers queue on an item while its
    regrade waits for the grader are overwritten when the regrade settles:
    the store ends as if only the regrade's last update had been applied.
    Of a regrade and a batch turn, or of two regrades, overlapping on one
    item, the one that settles last decides. *)
Theorem regrade_overwrites_overlapping_updates
    (st : AppState) (g : Invoker) (i : string) (file : HomeworkFile)
    (awaitingOne : list Update) :
  find (fun f => String.eqb (id f) i) (files st) = Some file ->
  forallb (statusUpdateOf i) awaitingOne = true ->
  files (run (clickReGrade g awaitingOne i st) st)
  = files (run [settle i (g 0 file (rubric st) (settings st))] st).
Proof.
  intros Hfind Haw; unfold clickReGrade, reGradeFile; rewrite Hfind.
  assert (Hall : forallb (statusUpdateOf i)
                         (UpdateFileStatus i PROCESSING None None :: awaitingOne)
                 = true)
    by (simpl; now rewrite String.eqb_refl, Haw).
  rewrite app_comm_cons.
  destruct (g 0 file (rubric st) (settings st)) as [r|e]; simpl settle;
    now rewrite (@last_status_update_wins i _ _ _ _ Hall).
Qed.

Lemma regrade_overwrites_overlapping_updates_witness :
  files (run (clickReGrade alwaysGraded
                           (clickReGrade (failingAt 0) [] "d4" (stateOf mixedItems))
                           "d4" (stateOf mixedItems))
             (stateOf mixedItems))
  = files (run [UpdateFileStatus "d4" COMPLETED (Some graded90) None]
               (stateOf mixedItems)).
Proof.
  apply (regrade_overwrites_overlapping_updates (stateOf mixedItems) alwaysGraded
           "d4" (file := withStatus (item "d4" "four.txt" PENDING) ERROR None
                                    (Some "rate limited")));
    reflexivity.
Defined.

(** X14. Status updates on different items commute: handlers that work
    on different ids reach the same store in whatever order their updates
    interleave. *)
Theorem status_updates_on_different_items_commute
    (i j : string) (s s' : FileStatus) (r r' : option GradingResult)
    (e e' : option string) (st : AppState) :
  i <> j ->
  run [UpdateFileStatus i s r e; UpdateFileStatus j s' r' e'] st
  = run [UpdateFileStatus j s' r' e'; UpdateFileStatus i s r e] st.
Proof.
  intro Hij; simpl; unfold setFiles; simpl; f_equal.
  unfold updateFileStatus; rewrite !map_map; apply map_ext; intro f.
  destruct (String.eqb (id f) i) eqn:Ei, (String.eqb (id f) j) eqn:Ej;
    simpl; rewrite ?Ei, ?Ej; try reflexivity.
  apply String.eqb_eq in Ei, Ej; exfalso; apply Hij; now rewrite <- Ei, <- Ej.
Qed.

Lemma status_updates_on_different_items_commute_witness :
  run [UpdateFileStatus "a1" PROCESSING None None;
       UpdateFileStatus "d4" COMPLETED (Some graded90) None] (stateOf mixedItems)
  = run [UpdateFileStatus "d4" COMPLETED (Some graded90) None;
         UpdateFileStatus "a1" PROCESSING None None] (stateOf mixedItems).
Proof.
  apply (status_updates_on_different_items_commute (i := "a1") (j := "d4")).
  discriminate.
Defined.

(** ** Hidden files and ids *)

Lemma processFiles_ext random rd ex rd' ex' (validFiles : list File) :
  (forall f, In f validFiles -> rd f = rd' f /\ ex f = ex' f) ->
  forall k, processFiles random rd ex k validFiles
            = processFiles random rd' ex' k validFiles.
Proof.
  induction validFiles as [|f rest IH]; intros H k; [reflexivity|].
  simpl; unfold processFile.
  destruct (H f (or_introl eq_refl)) as [<- <-].
  rewrite IH; [reflexivity|].
  intros x Hx; apply H; now right.
Qed.

(** X15. [addFiles] never reads a file whose name begins with a dot: the
    call's outcome is the same whatever the extraction services would do on
    such files, faults included.  A call that is given hidden files only
    queues an empty append, which leaves the state as it is. *)
Theorem addFiles_never_reads_hidden_files
    (random : nat -> string)
    (rd ex rd' ex' : File -> Outcome (option string)) (newFiles : list File) :
  (forall f, In f newFiles -> notHidden f = true -> rd f = rd' f /\ ex f = ex' f) ->
  addFiles random rd ex newFiles = addFiles random rd' ex' newFiles /\
  ((forall f, In f newFiles -> notHidden f = false) ->
   addFiles random rd ex newFiles = Returned [AppendFiles []] /\
   forall st, run [AppendFiles []] st = st).
Proof.
  intro H; split.
  - unfold addFiles; rewrite (processFiles_ext random rd ex rd' ex');
      [reflexivity|].
    intros f Hin; apply filter_In in Hin; destruct Hin as [Hin Hv]; now apply H.
  - intro Hhid; split.
    + unfold addFiles.
      assert (E : filter notHidden newFiles = []).
      { apply length_zero_iff_nil, length_filter_zero; exact Hhid. }
      now rewrite E.
    + intro st; simpl; apply setFiles_same; apply app_nil_r.
Qed.

Lemma addFiles_never_reads_hidden_files_witness :
  addFiles drawsHalf (rejectsOn ".DS_Store") resolvesPayload
           [upload ".DS_Store"; upload "a.txt"]
  = addFiles drawsHalf resolvesPayload resolvesPayload
             [upload ".DS_Store"; upload "a.txt"].
Proof.
  apply (addFiles_never_reads_hidden_files drawsHalf
           (rejectsOn ".DS_Store") resolvesPayload resolvesPayload resolvesPayload
           [upload ".DS_Store"; upload "a.txt"]).
  intros f [<-|[<-|[]]] Hv; [discriminate Hv|split; reflexivity].
Defined.

Lemma length_substring (n m : nat) (s : string) :
  String.length (String.substring n m s) = Nat.min m (String.length s - n).
Proof.
  revert n m; induction s as [|c s IH]; intros n m.
  - destruct n, m; simpl; try reflexivity; now rewrite Nat.min_0_r.
  - destruct n as [|n].
    + destruct m as [|m]; simpl; [reflexivity|].
      rewrite IH, Nat.sub_0_r; reflexivity.
    + simpl; apply IH.
Qed.

(** X16. An id is what is left of the draw's rendering after its first two
    characters, cut at nine: it has at most nine characters, exactly nine
    when the rendering has eleven or more, and it is empty when the
    rendering has no more than two (a draw of 0 renders as ["0"]). *)
Theorem freshId_length (rendered : string) :
  String.length (freshId rendered) = Nat.min 9 (String.length rendered - 2) /\
  String.length (freshId rendered) <= 9 /\
  (String.length rendered <= 2 -> freshId rendered = EmptyString).
Proof.
  unfold freshId; rewrite length_substring; split; [reflexivity|split].
  - apply Nat.le_min_l.
  - intro H.
    assert (E : String.length (String.substring 2 9 rendered) = 0)
      by (rewrite length_substring; lia).
    now destruct (String.substring 2 9 rendered).
Qed.

Lemma freshId_length_witness :
  String.length "0" <= 2 /\ freshId "0" = EmptyString.
Proof.
  split; [simpl; lia|].
  apply (proj2 (proj2 (freshId_length "0"))); simpl; lia.
Defined.

(** ** Deleting while grading *)

Lemma hasId_removeFile (i : string) (fs : list HomeworkFile) :
  hasId (removeFile i fs) i = false.
Proof.
  apply hasId_false; intro H.
  apply in_map_iff in H; destruct H as [f [Hf Hin]].
  apply filter_In in Hin; destruct Hin as [_ Hne].
  rewrite Hf, String.eqb_refl in Hne; discriminate Hne.
Qed.

Lemma hasId_stays_false (u : Update) (st : AppState) (i : string) :
  appends u = false ->
  hasId (files st) i = false ->
  hasId (files (applyUpdate u st)) i = false.
Proof.
  intros Hu H; destruct u as [items|j|j s r e|patch|r|b]; simpl;
    try exact H; try discriminate Hu.
  - rewrite hasId_false in H |- *; intro Hin; apply H.
    eapply ids_filter_incl; exact Hin.
  - rewrite hasId_false in H |- *; now rewrite ids_updateFileStatus.
Qed.

Lemma hasId_stays_false_run (us : list Update) (i : string) :
  forallb (fun u => negb (appends u)) us = true ->
  forall st, hasId (files st) i = false -> hasId (files (run us st)) i = false.
Proof.
  induction us as [|u us IH]; intros H st Hst; [exact Hst|].
  simpl in H; apply andb_prop in H; destruct H as [Hu Hus].
  simpl; apply IH; [exact Hus|].
  apply hasId_stays_false; [now apply negb_true_iff|exact Hst].
Qed.

Lemma settle_appends i o : appends (settle i o) = false.
Proof. now destruct o. Qed.

Lemma gradeEach_appends cr cs g (awaiting : nat -> list Update) :
  (forall k, forallb (fun u => negb (appends u)) (awaiting k) = true) ->
  forall todo k,
    forallb (fun u => negb (appends u)) (gradeEach cr cs g awaiting k todo) = true.
Proof.
  intros Haw todo; induction todo as [|file rest IH]; intro k; simpl;
    [reflexivity|].
  rewrite forallb_app, Haw; simpl.
  now rewrite settle_appends, IH.
Qed.

Lemma awaiting_in_gradeEach cr cs g (awaiting : nat -> list Update) (u : Update)
    (k0 : nat) :
  In u (awaiting k0) ->
  forall todo k,
    k <= k0 < k + List.length todo ->
    In u (gradeEach cr cs g awaiting k todo).
Proof.
  intros Hu todo; induction todo as [|file rest IH]; intros k Hk; simpl in *;
    [lia|].
  right; apply in_or_app.
  destruct (Nat.eq_dec k k0) as [->|Hne]; [now left|].
  right; right; apply IH; lia.
Qed.

(** X17. An item deleted while a batch runs stays deleted: if a
    [removeFile] of its id is queued during some turn and no upload is
    queued during the run, the store holds no item of that id when the
    batch ends, also when the batch had the item in its snapshot and
    settles it after the deletion. *)
Theorem removed_item_stays_removed
    (st : AppState) (g : Invoker) (awaiting : nat -> list Update)
    (i : string) (k0 : nat) :
  (forall k, forallb (fun u => negb (appends u)) (awaiting k) = true) ->
  In (RemoveFile i) (awaiting k0) ->
  k0 < List.length (filesToGrade (files st)) ->
  hasId (files (run (clickStartBatch g awaiting st) st)) i = false.
Proof.
  intros Haw Hin Hk0.
  assert (Hq : In (RemoveFile i) (clickStartBatch g awaiting st)).
  { unfold clickStartBatch, startBatchGrading; right; apply in_or_app; left.
    apply awaiting_in_gradeEach with k0; [exact Hin|lia]. }
  assert (Hno : forallb (fun u => negb (appends u))
                        (clickStartBatch g awaiting st) = true).
  { unfold clickStartBatch, startBatchGrading; simpl.
    rewrite forallb_app, gradeEach_appends by exact Haw; reflexivity. }
  apply in_split in Hq; destruct Hq as [us1 [us2 E]].
  rewrite E in Hno |- *.
  rewrite forallb_app in Hno; apply andb_prop in Hno; destruct Hno as [_ Hno].
  simpl in Hno.
  rewrite run_app; simpl run.
  apply hasId_stays_false_run; [exact Hno|].
  simpl; apply hasId_removeFile.
Qed.

Lemma removed_item_stays_removed_witness :
  hasId (files (run (clickStartBatch alwaysGraded
                                     (fun k => if Nat.eqb k 0
                                               then [RemoveFile "d4"] else [])
                                     (stateOf mixedItems))
                    (stateOf mixedItems))) "d4" = false.
Proof.
  apply (removed_item_stays_removed (stateOf mixedItems) alwaysGraded
           (fun k => if Nat.eqb k 0 then [RemoveFile "d4"] else [])
           "d4" (k0 := 0)).
  - intro k; now destruct (Nat.eqb k 0).
  - now left.
  - simpl; lia.
Defined.

(** ** One grading call at a time *)

Lemma length_filter_map {A B} (p : B -> bool) (h : A -> B) (l : list A) :
  List.length (filter p (map h l)) = List.length (filter (fun x => p (h x)) l).
Proof.
  induction l as [|x l IH]; simpl; [reflexivity|].
  destruct (p (h x)); simpl; now rewrite IH.
Qed.

Lemma length_filter_le {A} (p q : A -> bool) (l : list A) :
  (forall x, In x l -> p x = true -> q x = true) ->
  List.length (filter p l) <= List.length (filter q l).
Proof.
  induction l as [|x l IH]; intro H; simpl; [lia|].
  assert (IH' : List.length (filter p l) <= List.length (filter q l))
    by (apply IH; intros y Hy; apply H; now right).
  destruct (p x) eqn:Ep.
  - rewrite (H x (or_introl eq_refl) Ep); simpl; lia.
  - destruct (q x); simpl; lia.
Qed.

Lemma at_most_one_with_id (i : string) (fs : list HomeworkFile) :
  NoDup (map id fs) ->
  List.length (filter (fun f => String.eqb (id f) i) fs) <= 1.
Proof.
  induction fs as [|a fs IH]; simpl; intro H; [lia|].
  inversion H as [|? ? Hnotin Hrest]; subst.
  destruct (String.eqb_spec (id a) i) as [E|E]; [|now apply IH].
  assert (Hz : List.length (filter (fun f => String.eqb (id f) i) fs) = 0).
  { apply length_filter_zero; intros f Hin.
    apply String.eqb_neq; intro Ef; apply Hnotin.
    rewrite E, <- Ef; now apply in_map. }
  simpl; lia.
Qed.

Lemma inFlight_processing (l : list HomeworkFile) (i : string)
    (fs : list HomeworkFile) :
  NoDup (map id fs) ->
  List.length (inFlight l fs) = 0 ->
  List.length (inFlight l (updateFileStatus i PROCESSING None None fs)) <= 1.
Proof.
  intros Hnd Hnone; unfold inFlight, updateFileStatus.
  rewrite length_filter_map.
  eapply Nat.le_trans; [|apply (at_most_one_with_id i fs Hnd)].
  apply length_filter_le; intros f Hin Hp.
  destruct (String.eqb (id f) i); [reflexivity|].
  unfold inFlight in Hnone; rewrite length_filter_zero in Hnone.
  rewrite (Hnone f Hin) in Hp; discriminate Hp.
Qed.

Lemma inFlight_settled (l : list HomeworkFile) (i : string)
    (o : Outcome GradingResult) (fs : list HomeworkFile) :
  List.length (inFlight l fs) = 0 ->
  List.length
    (inFlight l (map (fun f => if String.eqb (id f) i then resolved o f else f)
                     fs)) = 0.
Proof.
  intro Hnone; unfold inFlight in *.
  rewrite length_filter_map; rewrite length_filter_zero in Hnone |- *.
  intros f Hin; destruct (String.eqb (id f) i); [|now apply Hnone].
  now destruct o.
Qed.

Lemma gradeEach_one_at_a_time cr cs (g : Invoker) (l todo : list HomeworkFile) :
  forall k st,
    NoDup (map id (files st)) ->
    List.length (inFlight l (files st)) = 0 ->
    Forall (fun s => List.length (inFlight l (files s)) <= 1)
           (trace (gradeEach cr cs g (fun _ => []) k todo) st) /\
    List.length
      (inFlight l (files (run (gradeEach cr cs g (fun _ => []) k todo) st))) = 0.
Proof.
  induction todo as [|file rest IH]; intros k st Hnd Hnone.
  - split; [constructor|exact Hnone].
  - change (gradeEach cr cs g (fun _ => []) k (file :: rest))
      with ([UpdateFileStatus (id file) PROCESSING None None;
             settle (id file) (g k file cr cs)]
            ++ gradeEach cr cs g (fun _ => []) (S k) rest).
    rewrite trace_app, run_app.
    set (st2 := run [UpdateFileStatus (id file) PROCESSING None None;
                     settle (id file) (g k file cr cs)] st).
    assert (Hfiles2 : files st2
                      = map (fun f => if String.eqb (id f) (id file)
                                      then resolved (g k file cr cs) f else f)
                            (files st)) by apply files_turn.
    assert (Hnone2 : List.length (inFlight l (files st2)) = 0)
      by (rewrite Hfiles2; now apply inFlight_settled).
    assert (Hnd2 : NoDup (map id (files st2))).
    { rewrite Hfiles2, map_map.
      erewrite map_ext; [exact Hnd|].
      intro f; simpl; destruct (String.eqb (id f) (id file));
        [apply id_resolved|reflexivity]. }
    destruct (IH (S k) st2 Hnd2 Hnone2) as [Htr Hrun].
    split; [|exact Hrun].
    apply Forall_app; split; [|exact Htr].
    constructor; [now apply inFlight_processing|].
    constructor; [|constructor].
    change (List.length (inFlight l (files st2)) <= 1); rewrite Hnone2; lia.
Qed.

(** X18. A batch left undisturbed on a store with pairwise distinct ids
    has at most one of its files in Processing at any moment: after every
    update of the run, at most one item with an id of the snapshot is being
    graded. *)
Theorem batch_grades_one_item_at_a_time (st : AppState) (g : Invoker) :
  NoDup (map id (files st)) ->
  Forall (fun s =>
            List.length (inFlight (filesToGrade (files st)) (files s)) <= 1)
         (trace (clickStartBatch g (fun _ => []) st) st).
Proof.
  intro Hnd.
  set (l := filesToGrade (files st)).
  assert (Hnone : List.length (inFlight l (files st)) = 0).
  { apply length_filter_zero; intros f Hin.
    destruct (hasId l (id f)) eqn:Hid; [|apply andb_false_r].
    assert (Hl : In (id f) (map id l)).
    { destruct (in_dec string_dec (id f) (map id l)) as [H|H]; [exact H|].
      apply hasId_false in H; rewrite H in Hid; discriminate Hid. }
    apply in_map_iff in Hl; destruct Hl as [x [Hx Hxl]].
    apply filter_In in Hxl; destruct Hxl as [Hxin Hgrade].
    assert (E : x = f)
      by (eapply same_id_same_item; [exact Hnd|exact Hxin|exact Hin|exact Hx]).
    subst x; unfold toGrade in Hgrade.
    now destruct (status f). }
  destruct (gradeEach_one_at_a_time (rubric st) (settings st) g l l 0
              (applyUpdate (SetIsGrading true) st) Hnd Hnone)
    as [Htr Hrun].
  unfold clickStartBatch, startBatchGrading; fold l.
  simpl trace; constructor; [simpl; rewrite Hnone; lia|].
  rewrite trace_app; apply Forall_app; split; [exact Htr|].
  simpl; constructor; [|constructor].
  simpl in Hrun |- *; rewrite Hrun; lia.
Qed.

Lemma batch_grades_one_item_at_a_time_witness :
  Forall (fun s => List.length (inFlight (filesToGrade threeItems) (files s)) <= 1)
         (trace (clickStartBatch (failingAt 1) (fun _ => []) (stateOf threeItems))
                (stateOf threeItems)).
Proof.
  apply (batch_grades_one_item_at_a_time (stateOf threeItems) (failingAt 1)).
  simpl; repeat constructor; simpl; intuition discriminate.
Defined.

(** X19. A regrade changes no item but those with its id: whatever other
    handlers queue while it waits, every other item ends exactly as those
    other updates alone leave it. *)
Theorem regrade_touches_only_its_item
    (st : AppState) (closure_files : list HomeworkFile) (closure_rubric : string)
    (closure_settings : AppSettings) (g : Invoker) (awaitingOne : list Update)
    (i : string) (file : HomeworkFile) :
  find (fun f => String.eqb (id f) i) closure_files = Some file ->
  apartFrom [file]
            (files (run (reGradeFile closure_files closure_rubric
                                     closure_settings g awaitingOne i) st))
  = apartFrom [file] (files (run awaitingOne st)).
Proof.
  intro Hfind; unfold reGradeFile; rewrite Hfind.
  apply find_some in Hfind; destruct Hfind as [_ Hid].
  assert (Hi : hasId [file] i = true) by (unfold hasId; simpl; now rewrite Hid).
  simpl run; rewrite run_app.
  change (run [settle i (g 0 file closure_rubric closure_settings)] ?s)
    with (applyUpdate (settle i (g 0 file closure_rubric closure_settings)) s).
  rewrite apartFrom_settle by exact Hi.
  apply apartFrom_run; simpl.
  now apply apartFrom_update_inside.
Qed.

Lemma regrade_touches_only_its_item_witness :
  apartFrom [withStatus (item "d4" "four.txt" PENDING) ERROR None
                        (Some "rate limited")]
            (files (run (reGradeFile mixedItems "rubric" (DEFAULT_SETTINGS None)
                                     alwaysGraded [RemoveFile "a1"] "d4")
                        (stateOf mixedItems)))
  = apartFrom [withStatus (item "d4" "four.txt" PENDING) ERROR None
                          (Some "rate limited")]
              (files (run [RemoveFile "a1"] (stateOf mixedItems))).
Proof.
  apply (regrade_touches_only_its_item (stateOf mixedItems) mixedItems "rubric"
           (DEFAULT_SETTINGS None) alwaysGraded [RemoveFile "a1"] "d4").
  reflexivity.
Defined.
